(** * HDLC protocol decoder ([pd.py]): shallow embedding and verification

    The decoder is a Python class whose methods mutate the fields of [self]
    and hand annotations to the host through [self.put].  The embedding keeps
    that shape: a record [Decoder] for the fields assigned in [reset], a small
    state / output / exception monad [M] for the methods, and the host-owned
    attributes ([self.samplenum], [self.matched], [self.options],
    [self.has_channel]) passed in explicitly. *)

From Stdlib Require Import ZArith List String Ascii Bool Lia DecimalString Sorted.
Import ListNotations.
Open Scope string_scope.
Open Scope Z_scope.
Open Scope list_scope.

(** ** Python values and exceptions *)

(** [self.have_en] holds [None], then a [bool], then an [int]; the code only
    tests its truth value. *)
Inductive pyval : Type :=
| PyNone
| PyBool (b : bool)
| PyInt (z : Z).

Definition truthy (v : pyval) : bool :=
  match v with
  | PyNone => false
  | PyBool b => b
  | PyInt z => negb (z =? 0)
  end.

(** [ChannelError] is the decoder's own exception.  [IndexError],
    [TypeError] and [ValueError] are what Python raises on [rxbits[0]] or
    [matched[0]] out of range, on ['%d' % None] and on a negative shift
    count.  [EOFError] is how the host's [wait] ends decoding when the
    recording is exhausted. *)
Inductive exn : Type :=
| ChannelError (msg : string)
| IndexError
| TypeError
| ValueError
| EOFError.

(** ** Host interface *)

(** The four outputs registered in [start]. *)
Inductive output : Type := out_python | out_ann | out_binary | out_bitrate.

(** [ann_bit, ann_data, ann_data_type, ann_warning, ann_transfer = range(5)] *)
Definition ann_bit : Z := 0.
Definition ann_data : Z := 1.
Definition ann_data_type : Z := 2.
Definition ann_warning : Z := 3.
Definition ann_transfer : Z := 4.

(** The last argument of [put]: an annotation [[cls, [text, ...]]] or a
    Python-output packet [[ptype, data1, data2]]. *)
Inductive putdata : Type :=
| Annotation (cls : Z) (texts : list string)
| Packet (ptype : string) (data1 data2 : pyval).

(** A wait condition is a dict from channel index to edge kind;
    [wait] takes one dict or a list of them. *)
Definition cond : Type := list (Z * string).

Inductive waitarg : Type :=
| WDict (d : cond)
| WList (l : list cond).

(** What the decoder does to the host, in order. *)
Inductive event : Type :=
| Put (ss es : Z) (out : output) (data : putdata)
| Wait (arg : waitarg).

(** One sample as [wait] delivers it: it sets [self.samplenum] and
    [self.matched] and returns the pin tuple [(clk, data, en)]. *)
Record Sample : Type := mkSample {
  s_samplenum : Z;
  s_matched : list bool;
  s_clk : Z;
  s_data : Z;
  s_en : Z
}.

Record Options : Type := mkOptions {
  en_polarity : string;
  cpol : Z
}.

(** ** String formatting *)

(** ['%d' % z] *)
Definition fmt_d (z : Z) : string := NilZero.string_of_int (Z.to_int z).

Definition hex_digit (d : Z) : ascii :=
  match String.get (Z.to_nat d) "0123456789ABCDEF" with
  | Some c => c
  | None => "0"%char
  end.

Fixpoint hex_digits (fuel : nat) (n : Z) (acc : string) : string :=
  match fuel with
  | O => acc
  | S fuel' =>
      let acc' := String (hex_digit (n mod 16)) acc in
      if n / 16 =? 0 then acc' else hex_digits fuel' (n / 16) acc'
  end.

Definition hex_upper (n : Z) : string :=
  hex_digits (S (Z.to_nat (Z.log2 n))) n "".

(** ['%02X' % z]: upper-case hexadecimal, zero-padded to width 2, the sign
    counting towards the width. *)
Definition fmt_02X (z : Z) : string :=
  if z <? 0 then String.append "-" (hex_upper (- z))
  else
    let h := hex_upper z in
    if (String.length h <? 2)%nat then String.append "0" h else h.

(** ** Decoder state *)

Record Decoder : Type := mkDecoder {
  samplerate : option Z;
  bitcount : Z;              (* Actual shifted bit number *)
  rxdata : Z;                (* Received data byte *)
  rxbits : list (Z * Z);     (* Received bits, [data, samplenum] *)
  rxbytes : list (Z * Z * Z);(* Received bytes *)
  prev_bit : option Z;       (* Previous bit state *)
  ss_prev_clock : Z;         (* Previous clock samplenum *)
  ss_prev_false : Z;         (* samplenum at previous false *)
  flag_found : bool;         (* Start flag found *)
  ss_flag : Z;               (* samplenum at start flag *)
  have_en : pyval;           (* Use enable signal *)
  one_count : Z;             (* Number of consecutive 1 *)
  prev_one_count : Z         (* Previous number of consecutive 1 *)
}.

Definition reset : Decoder :=
  {| samplerate := None;
     bitcount := 0;
     rxdata := 0;
     rxbits := [];
     rxbytes := [];
     prev_bit := None;
     ss_prev_clock := -1;
     ss_prev_false := -1;
     flag_found := false;
     ss_flag := -1;
     have_en := PyNone;
     one_count := 0;
     prev_one_count := 0 |}.

(** Field assignments [self.f = v]. *)
Definition set_bitcount (v : Z) (s : Decoder) : Decoder :=
  mkDecoder (samplerate s) v (rxdata s) (rxbits s) (rxbytes s) (prev_bit s)
    (ss_prev_clock s) (ss_prev_false s) (flag_found s) (ss_flag s) (have_en s)
    (one_count s) (prev_one_count s).
Definition set_rxdata (v : Z) (s : Decoder) : Decoder :=
  mkDecoder (samplerate s) (bitcount s) v (rxbits s) (rxbytes s) (prev_bit s)
    (ss_prev_clock s) (ss_prev_false s) (flag_found s) (ss_flag s) (have_en s)
    (one_count s) (prev_one_count s).
Definition set_rxbits (v : list (Z * Z)) (s : Decoder) : Decoder :=
  mkDecoder (samplerate s) (bitcount s) (rxdata s) v (rxbytes s) (prev_bit s)
    (ss_prev_clock s) (ss_prev_false s) (flag_found s) (ss_flag s) (have_en s)
    (one_count s) (prev_one_count s).
Definition set_rxbytes (v : list (Z * Z * Z)) (s : Decoder) : Decoder :=
  mkDecoder (samplerate s) (bitcount s) (rxdata s) (rxbits s) v (prev_bit s)
    (ss_prev_clock s) (ss_prev_false s) (flag_found s) (ss_flag s) (have_en s)
    (one_count s) (prev_one_count s).
Definition set_prev_bit (v : option Z) (s : Decoder) : Decoder :=
  mkDecoder (samplerate s) (bitcount s) (rxdata s) (rxbits s) (rxbytes s) v
    (ss_prev_clock s) (ss_prev_false s) (flag_found s) (ss_flag s) (have_en s)
    (one_count s) (prev_one_count s).
Definition set_ss_prev_clock (v : Z) (s : Decoder) : Decoder :=
  mkDecoder (samplerate s) (bitcount s) (rxdata s) (rxbits s) (rxbytes s)
    (prev_bit s) v (ss_prev_false s) (flag_found s) (ss_flag s) (have_en s)
    (one_count s) (prev_one_count s).
Definition set_ss_prev_false (v : Z) (s : Decoder) : Decoder :=
  mkDecoder (samplerate s) (bitcount s) (rxdata s) (rxbits s) (rxbytes s)
    (prev_bit s) (ss_prev_clock s) v (flag_found s) (ss_flag s) (have_en s)
    (one_count s) (prev_one_count s).
Definition set_flag_found (v : bool) (s : Decoder) : Decoder :=
  mkDecoder (samplerate s) (bitcount s) (rxdata s) (rxbits s) (rxbytes s)
    (prev_bit s) (ss_prev_clock s) (ss_prev_false s) v (ss_flag s) (have_en s)
    (one_count s) (prev_one_count s).
Definition set_ss_flag (v : Z) (s : Decoder) : Decoder :=
  mkDecoder (samplerate s) (bitcount s) (rxdata s) (rxbits s) (rxbytes s)
    (prev_bit s) (ss_prev_clock s) (ss_prev_false s) (flag_found s) v
    (have_en s) (one_count s) (prev_one_count s).
Definition set_have_en (v : pyval) (s : Decoder) : Decoder :=
  mkDecoder (samplerate s) (bitcount s) (rxdata s) (rxbits s) (rxbytes s)
    (prev_bit s) (ss_prev_clock s) (ss_prev_false s) (flag_found s) (ss_flag s)
    v (one_count s) (prev_one_count s).
Definition set_one_count (v : Z) (s : Decoder) : Decoder :=
  mkDecoder (samplerate s) (bitcount s) (rxdata s) (rxbits s) (rxbytes s)
    (prev_bit s) (ss_prev_clock s) (ss_prev_false s) (flag_found s) (ss_flag s)
    (have_en s) v (prev_one_count s).
Definition set_prev_one_count (v : Z) (s : Decoder) : Decoder :=
  mkDecoder (samplerate s) (bitcount s) (rxdata s) (rxbits s) (rxbytes s)
    (prev_bit s) (ss_prev_clock s) (ss_prev_false s) (flag_found s) (ss_flag s)
    (have_en s) (one_count s) v.

(** ** The method monad: state of [self], events sent to the host, exceptions *)

Definition M (A : Type) : Type := Decoder -> (exn + A) * Decoder * list event.

Definition ret {A : Type} (a : A) : M A := fun s => (inr a, s, []).

Definition bind {A B : Type} (m : M A) (f : A -> M B) : M B :=
  fun s =>
    match m s with
    | (inl e, s1, o1) => (inl e, s1, o1)
    | (inr a, s1, o1) =>
        match f a s1 with
        | (r, s2, o2) => (r, s2, o1 ++ o2)
        end
    end.

Notation "x <- m ;; k" := (bind m (fun x => k))
  (at level 61, m at next level, right associativity).
Notation "m ;; k" := (bind m (fun _ => k))
  (at level 61, right associativity).

Definition get : M Decoder := fun s => (inr s, s, []).
Definition modify (f : Decoder -> Decoder) : M unit := fun s => (inr tt, f s, []).
Definition raise {A : Type} (e : exn) : M A := fun s => (inl e, s, []).
Definition emit (e : event) : M unit := fun s => (inr tt, s, [e]).

(** [self.put(ss, es, out, data)] *)
Definition put (ss es : Z) (out : output) (data : putdata) : M unit :=
  emit (Put ss es out data).

(** Projections of a run. *)
Definition outcome {A : Type} (r : (exn + A) * Decoder * list event) : exn + A :=
  fst (fst r).
Definition state_of {A : Type} (r : (exn + A) * Decoder * list event) : Decoder :=
  snd (fst r).
Definition events_of {A : Type} (r : (exn + A) * Decoder * list event) : list event :=
  snd r.

(** [self.f = e], with [e] evaluated on the current [self]. *)
Definition assign {V : Type} (setter : V -> Decoder -> Decoder)
    (e : Decoder -> V) : M unit :=
  modify (fun self => setter (e self) self).

(** ** The decoder's methods *)

Section Methods.

Variable options : Options.
Variable has_channel : Z -> bool.

(** Check if ENABLE is asserted. *)
Definition en_asserted (en : Z) : bool :=
  let active_low := String.eqb (en_polarity options) "active-low" in
  if active_low then en =? 0 else en =? 1.

(** Shifts bit.  [data << self.bitcount] raises [ValueError] on a negative
    shift count. *)
Definition shift_bit (samplenum data : Z) : M unit :=
  self <- get ;;
  if flag_found self then
    (if bitcount self <? 0 then raise ValueError else ret tt) ;;
    assign set_rxdata
      (fun self => Z.lor (rxdata self) (Z.shiftl data (bitcount self))) ;;
    assign set_rxbits (fun self => rxbits self ++ [(data, samplenum)]) ;;
    assign set_bitcount (fun self => bitcount self + 1)
  else ret tt.

(** [handle_bit], block "Displays bit": the previous bit is shown once its
    end sample is known. *)
Definition handle_bit_display_bit (samplenum data : Z) : M unit :=
  self <- get ;;
  (if negb (ss_prev_clock self =? -1) then
     match prev_bit self with
     | Some b =>
         put (ss_prev_clock self) samplenum out_ann
           (Annotation ann_bit [fmt_d b])
     | None => raise TypeError
     end
   else ret tt) ;;
  assign set_ss_prev_clock (fun _ => samplenum) ;;
  assign set_prev_bit (fun _ => Some data).

(** [handle_bit], block "Flag". *)
Definition handle_bit_flag (samplenum : Z) : M unit :=
  self <- get ;;
  if prev_one_count self =? 6 then
    put (ss_flag self) samplenum out_ann (Annotation ann_data_type ["FLAG"])
  else if prev_one_count self >? 6 then
    put (ss_flag self) samplenum out_ann (Annotation ann_data_type ["ABORT"])
  else ret tt.

(** [handle_bit], block "Display previous data". *)
Definition handle_bit_display_data (samplenum : Z) : M unit :=
  self <- get ;;
  if bitcount self =? 8 then
    match rxbits self with
    | (_, ss) :: _ =>
        put ss samplenum out_ann (Annotation ann_data [fmt_02X (rxdata self)])
    | [] => raise IndexError
    end ;;
    assign set_rxdata (fun _ => 0) ;;
    assign set_bitcount (fun _ => 0) ;;
    assign set_rxbits (fun _ => [])
  else ret tt.

(** [handle_bit], block "Count number of 1". *)
Definition handle_bit_count_ones (samplenum data : Z) : M unit :=
  if data =? 1 then
    shift_bit samplenum data ;;
    assign set_one_count (fun self => one_count self + 1)
  else
    self <- get ;;
    (if one_count self >? 5 then
       assign set_ss_flag (fun self => ss_prev_false self) ;;
       assign set_flag_found (fun _ => false)
     else ret tt) ;;
    self <- get ;;
    (if one_count self =? 6 then
       assign set_flag_found (fun _ => true) ;;
       assign set_rxdata (fun _ => 0) ;;
       assign set_bitcount (fun _ => 0) ;;
       assign set_rxbits (fun _ => [])
     else if one_count self <? 5 then
       shift_bit samplenum data
     else ret tt) ;;
    assign set_prev_one_count (fun self => one_count self) ;;
    assign set_one_count (fun _ => 0) ;;
    assign set_ss_prev_false (fun _ => samplenum).

(** handles bit *)
Definition handle_bit (samplenum clk data en : Z) : M unit :=
  handle_bit_display_bit samplenum data ;;
  handle_bit_flag samplenum ;;
  handle_bit_display_data samplenum ;;
  handle_bit_count_ones samplenum data.

(** The frame reset at the top of [find_clk_edge]. *)
Definition frame_reset : M unit :=
  assign set_rxdata (fun _ => 0) ;;
  assign set_bitcount (fun _ => 0) ;;
  assign set_rxbits (fun _ => []) ;;
  assign set_rxbytes (fun _ => []) ;;
  assign set_one_count (fun _ => 0) ;;
  assign set_ss_prev_clock (fun _ => -1).

(** Find clock edges.  [first or not self.matched[0]] reads [matched] only
    when [first] is false. *)
Definition find_clk_edge (samplenum : Z) (matched : list bool)
    (clk data en : Z) (first : bool) : M unit :=
  self <- get ;;
  if truthy (have_en self) && negb (en_asserted en) then
    frame_reset
  else
    unchanged <-
      (if first then ret true
       else match matched with
            | m :: _ => ret (negb m)
            | [] => raise IndexError
            end) ;;
    if unchanged then ret tt
    else if negb (cpol options =? clk) then ret tt
    else handle_bit samplenum clk data en.

(** [self.wait(arg)]: the call is recorded; at the end of the recording the
    host ends decoding, otherwise the next sample is delivered. *)
Definition wait (arg : waitarg) (pending : list Sample) : M Sample :=
  emit (Wait arg) ;;
  match pending with
  | [] => raise EOFError
  | x :: _ => ret x
  end.

(** The [while True] loop of [decode], over the samples still to come. *)
Fixpoint decode_loop (wait_cond : list cond) (pending : list Sample) : M unit :=
  match pending with
  | [] => wait (WList wait_cond) [] ;; ret tt
  | _ :: rest =>
      x <- wait (WList wait_cond) pending ;;
      find_clk_edge (s_samplenum x) (s_matched x) (s_clk x) (s_data x) (s_en x)
        false ;;
      decode_loop wait_cond rest
  end.

Definition decode (pending : list Sample) : M unit :=
  (if negb (has_channel 0) && negb (has_channel 1) then
     raise (ChannelError "Both clock and data pins required.")
   else ret tt) ;;
  assign set_have_en (fun _ => PyBool (has_channel 2)) ;;
  self <- get ;;
  (if negb (truthy (have_en self)) then
     put 0 0 out_python (Packet "CS-CHANGE" PyNone PyNone)
   else ret tt) ;;
  let wait_cond := [[(0, "e")]] in
  self <- get ;;
  wait_cond <-
    (if truthy (have_en self) then
       assign set_have_en (fun _ => PyInt (Z.of_nat (List.length wait_cond))) ;;
       ret (wait_cond ++ [[(3, "e")]])
     else ret wait_cond) ;;
  x <- wait (WDict []) pending ;;
  find_clk_edge (s_samplenum x) (s_matched x) (s_clk x) (s_data x) (s_en x)
    true ;;
  decode_loop wait_cond (tl pending).

(** *** Vocabulary for stating properties of the loop body *)

(** [find_clk_edge] on a sample as [wait] delivered it. *)
Definition deliver (x : Sample) (first : bool) : M unit :=
  find_clk_edge (s_samplenum x) (s_matched x) (s_clk x) (s_data x) (s_en x)
    first.

(** The loop body of [decode] applied to successive delivered samples
    ([first] is false for all of them); [decode_loop] is this with the
    [wait] calls in between. *)
Fixpoint feed (xs : list Sample) : M unit :=
  match xs with
  | [] => ret tt
  | x :: rest => deliver x false ;; feed rest
  end.

(** The three ways a non-bootstrap sample goes through [find_clk_edge],
    for a decoder whose [have_en] is [he]: enable wired and deasserted
    (frame reset); a qualifying clock edge (reaches [handle_bit]); otherwise
    ignored.  [accepted] samples are the last two kinds. *)
Definition disabled (he : pyval) (x : Sample) : bool :=
  truthy he && negb (en_asserted (s_en x)).

Definition qualifying (he : pyval) (x : Sample) : bool :=
  negb (disabled he x)
  && match s_matched x with m :: _ => m | [] => false end
  && (cpol options =? s_clk x).

Definition accepted (he : pyval) (x : Sample) : bool :=
  negb (disabled he x)
  && match s_matched x with _ :: _ => true | [] => false end.

(** Anything [find_clk_edge] handles without reaching [handle_bit]: a
    frame reset or an ignored sample. *)
Definition skipped (he : pyval) (x : Sample) : bool :=
  negb (qualifying he x)
  && (disabled he x
      || match s_matched x with _ :: _ => true | [] => false end).

End Methods.

(** ** Invariants *)

(** The receive register holds [bitcount] bits, one [rxbits] entry each. *)
Definition reg_inv (s : Decoder) : Prop :=
  0 <= bitcount s <= 8 /\
  bitcount s = Z.of_nat (List.length (rxbits s)) /\
  0 <= rxdata s < 2 ^ bitcount s.

(** [prev_bit] is set together with [ss_prev_clock]. *)
Definition wf (s : Decoder) : Prop :=
  reg_inv s /\ (prev_bit s = None -> ss_prev_clock s = -1).

(** Bits are shifted as they come: no 0 ends a run of five or more 1s.
    [c] is the length of the run of 1s so far. *)
Fixpoint unstuffed (c : Z) (bits : list Z) : bool :=
  match bits with
  | [] => true
  | d :: rest =>
      if d =? 1 then unstuffed (c + 1) rest
      else (d =? 0) && (c <? 5) && unstuffed 0 rest
  end.

(** The value of bits received least significant bit first. *)
Fixpoint byte_of (bits : list Z) : Z :=
  match bits with
  | [] => 0
  | b :: rest => b + 2 * byte_of rest
  end.

(** Event classifiers. *)
Definition is_data_ann (e : event) : bool :=
  match e with
  | Put _ _ out_ann (Annotation cls _) => cls =? ann_data
  | _ => false
  end.

Definition is_python (e : event) : bool :=
  match e with
  | Put _ _ out_python _ => true
  | _ => false
  end.

Definition is_wait (e : event) : bool :=
  match e with
  | Wait _ => true
  | _ => false
  end.

(** ** Closed forms of the blocks of [handle_bit]

    Each is the state, or the events, the block leaves when it does not
    raise; the lemmas [*_eq] below prove them equal to the code. *)

Definition shifted (samplenum data : Z) (s : Decoder) : Decoder :=
  if flag_found s then
    set_bitcount (bitcount s + 1)
      (set_rxbits (rxbits s ++ [(data, samplenum)])
         (set_rxdata (Z.lor (rxdata s) (Z.shiftl data (bitcount s))) s))
  else s.

Definition shown (samplenum data : Z) (s : Decoder) : Decoder :=
  set_prev_bit (Some data) (set_ss_prev_clock samplenum s).

Definition bit_events (samplenum : Z) (s : Decoder) : list event :=
  if negb (ss_prev_clock s =? -1) then
    match prev_bit s with
    | Some b =>
        [Put (ss_prev_clock s) samplenum out_ann (Annotation ann_bit [fmt_d b])]
    | None => []
    end
  else [].

Definition flag_events (samplenum : Z) (s : Decoder) : list event :=
  if prev_one_count s =? 6 then
    [Put (ss_flag s) samplenum out_ann (Annotation ann_data_type ["FLAG"])]
  else if prev_one_count s >? 6 then
    [Put (ss_flag s) samplenum out_ann (Annotation ann_data_type ["ABORT"])]
  else [].

Definition flushed (s : Decoder) : Decoder :=
  if bitcount s =? 8 then set_rxbits [] (set_bitcount 0 (set_rxdata 0 s))
  else s.

Definition data_events (samplenum : Z) (s : Decoder) : list event :=
  if bitcount s =? 8 then
    match rxbits s with
    | (_, ss) :: _ =>
        [Put ss samplenum out_ann (Annotation ann_data [fmt_02X (rxdata s)])]
    | [] => []
    end
  else [].

Definition counted (samplenum data : Z) (s : Decoder) : Decoder :=
  if data =? 1 then set_one_count (one_count s + 1) (shifted samplenum data s)
  else
    let s1 :=
      if one_count s >? 5 then
        set_flag_found false (set_ss_flag (ss_prev_false s) s)
      else s in
    let s2 :=
      if one_count s =? 6 then
        set_rxbits [] (set_bitcount 0 (set_rxdata 0 (set_flag_found true s1)))
      else if one_count s <? 5 then shifted samplenum data s1
      else s1 in
    set_ss_prev_false samplenum
      (set_one_count 0 (set_prev_one_count (one_count s) s2)).

(** One qualifying edge. *)
Definition stepped (samplenum data : Z) (s : Decoder) : Decoder :=
  counted samplenum data (flushed (shown samplenum data s)).

Definition step_events (samplenum : Z) (s : Decoder) : list event :=
  bit_events samplenum s ++ flag_events samplenum s ++ data_events samplenum s.

(** The state the frame reset of [find_clk_edge] leaves. *)
Definition frame_cleared (s : Decoder) : Decoder :=
  mkDecoder (samplerate s) 0 0 [] [] (prev_bit s) (-1) (ss_prev_false s)
    (flag_found s) (ss_flag s) (have_en s) 0 (prev_one_count s).

(** A list of qualifying edges, one after the other. *)
Fixpoint steps (edges : list Sample) (s : Decoder) : Decoder :=
  match edges with
  | [] => s
  | x :: rest => steps rest (stepped (s_samplenum x) (s_data x) s)
  end.

Fixpoint steps_events (edges : list Sample) (s : Decoder) : list event :=
  match edges with
  | [] => []
  | x :: rest =>
      step_events (s_samplenum x) s
      ++ steps_events rest (stepped (s_samplenum x) (s_data x) s)
  end.

Definition is_bit (x : Sample) : Prop := s_data x = 0 \/ s_data x = 1.

(** ** What a method may raise and emit *)

(** [sat P Q m]: whatever the state, [m] raises only exceptions in [P] and
    emits only events in [Q]. *)
Definition sat {A : Type} (P : exn -> Prop) (Q : event -> Prop) (m : M A) : Prop :=
  forall s,
    (forall e, outcome (m s) = inl e -> P e) /\ Forall Q (events_of (m s)).

(** The decoder's own run-time errors, and the annotation output. *)
Definition runtime_error (e : exn) : Prop :=
  e = IndexError \/ e = TypeError \/ e = ValueError.

Definition to_out_ann (ev : event) : Prop :=
  exists ss es data, ev = Put ss es out_ann data.

(** The loop adds the [wait] calls and the end of the recording. *)
Definition loop_error (e : exn) : Prop := runtime_error e \/ e = EOFError.

Definition loop_event (ev : event) : Prop :=
  to_out_ann ev \/ exists arg, ev = Wait arg.

(** ** Concrete recordings *)

Definition ex_options : Options := mkOptions "active-high" 1.

(** CLK and DATA wired, ENABLE not. *)
Definition wired_no_enable (ch : Z) : bool := (ch =? 0) || (ch =? 1).

(** CLK, DATA and ENABLE wired. *)
Definition wired_all (ch : Z) : bool := (ch =? 0) || (ch =? 1) || (ch =? 2).

(** One clock period per bit: a rising edge at [n] that carries the bit and
    a falling edge at [n + 5]. *)
Fixpoint clocked (n : Z) (matched : list bool) (en : Z) (bits : list Z)
  : list Sample :=
  match bits with
  | [] => []
  | b :: rest =>
      mkSample n matched 1 b en :: mkSample (n + 5) matched 0 b en
      :: clocked (n + 10) matched en rest
  end.

(** Without ENABLE: six 1s, the 0 that closes them, a falling edge, the
    next rising edge. *)
Definition ex_run6 : list Sample := clocked 10 [true] 255 [1; 1; 1; 1; 1; 1].
Definition ex_zero6 : Sample := mkSample 70 [true] 1 0 255.
Definition ex_gap6 : list Sample := [mkSample 75 [true] 0 0 255].
Definition ex_next6 : Sample := mkSample 80 [true] 1 1 255.

(** Without ENABLE: the bootstrap sample, then a flag. *)
Definition ex_flag_stream : list Sample :=
  mkSample 0 [] 0 0 255 :: clocked 10 [true] 255 [0; 1; 1; 1; 1; 1; 1; 0].

(** The decoder right after that flag. *)
Definition ex_flagged : Decoder :=
  state_of (decode ex_options wired_no_enable ex_flag_stream reset).

(** Seven 1s after the flag, the 0 that closes them, a falling edge, the
    next rising edge. *)
Definition ex_run7 : list Sample :=
  clocked 90 [true] 255 [1; 1; 1; 1; 1; 1; 1].
Definition ex_zero7 : Sample := mkSample 160 [true] 1 0 255.
Definition ex_gap7 : list Sample := [mkSample 165 [true] 0 0 255].
Definition ex_next7 : Sample := mkSample 170 [true] 1 0 255.

(** A byte sent after the flag, and the edge that shows it. *)
Definition ex_byte : list Sample :=
  clocked 90 [true] 255 [1; 1; 0; 1; 0; 1; 1; 0].
Definition ex_after_byte : Sample := mkSample 170 [true] 1 0 255.

(** The decoder after the flag and the bits 0 0 0 1 1 1 1 1: a full
    register and a run of five 1s; then the stuffed 0. *)
Definition ex_full : Decoder :=
  state_of
    (decode ex_options wired_no_enable
       (ex_flag_stream ++ clocked 90 [true] 255 [0; 0; 0; 1; 1; 1; 1; 1])
       reset).
Definition ex_stuffed : Sample := mkSample 170 [true] 1 0 255.

(** With ENABLE wired (active high): ENABLE rises, a flag and three bits
    come in. *)
Definition ex_frame_stream : list Sample :=
  mkSample 0 [] 0 0 0 :: mkSample 5 [false; true] 0 0 1
  :: clocked 10 [true; false] 1 [0; 1; 1; 1; 1; 1; 1; 0; 1; 0; 1].

Definition ex_framed : Decoder :=
  state_of (decode ex_options wired_all ex_frame_stream reset).

(** ENABLE rises, a flag and a byte come in, ENABLE falls and rises
    again. *)
Definition ex_transitions : list Sample :=
  mkSample 0 [] 0 0 0 :: mkSample 5 [false; true] 0 0 1
  :: clocked 10 [true; false] 1
       [0; 1; 1; 1; 1; 1; 1; 0; 1; 1; 0; 1; 0; 1; 1; 0; 0]
  ++ [mkSample 185 [false; true] 0 0 0; mkSample 195 [false; true] 0 0 1].

(** ** [crc16]

    The frame CRC of the source: a function of the class that takes no
    [self], and that no other method calls. *)

(** The body of the inner loop: one shift of the register. *)
Definition crc16_bit (crc : Z) : Z :=
  if Z.land crc 0x0001 >? 0 then Z.lxor (Z.shiftr crc 1) 0x8408
  else Z.shiftr crc 1.

(** The body of the outer loop: [crc ^= data[i] << 0], then eight shifts. *)
Definition crc16_byte (crc b : Z) : Z :=
  Nat.iter 8 crc16_bit (Z.lxor crc (Z.shiftl b 0)).

(** [for i in range(0, length)], from index [i], [n] rounds to go;
    [data[i]] raises [IndexError] past the end. *)
Fixpoint crc16_loop (data : list Z) (i n : nat) (crc : Z) : exn + Z :=
  match n with
  | O => inr crc
  | S n' =>
      match nth_error data i with
      | Some b => crc16_loop data (S i) n' (crc16_byte crc b)
      | None => inl IndexError
      end
  end.

(** [data] is [None] or a sequence of integers.  In the guard
    [data is None and length > len(data)] the second operand is evaluated
    only when [data] is [None], and [len(None)] raises [TypeError]. *)
Definition crc16 (data : option (list Z)) (length : Z) : exn + Z :=
  let guard : exn + bool :=
    match data with
    | None => inl TypeError
    | Some _ => inr false
    end in
  match guard with
  | inl e => inl e
  | inr true => inr 0
  | inr false =>
      let l := match data with Some l => l | None => [] end in
      match crc16_loop l 0 (Z.to_nat length) 0xFFFF with
      | inl e => inl e
      | inr crc => inr (Z.lxor (Z.land crc 0xFFFF) 0xFFFF)
      end
  end.

(** The register holds 16 bits. *)
Definition reg16 (crc : Z) : Prop := 0 <= crc < 2 ^ 16.

(** A byte string: every element is in [0, 255]. *)
Definition is_byte (b : Z) : Prop := 0 <= b < 256.

(** [P] on every [k]-bit extension of the prefix [acc]; used to check a
    property of the 16-bit register on all its values. *)
Fixpoint forall_bits (k : nat) (acc : Z) (P : Z -> bool) : bool :=
  match k with
  | O => P acc
  | S k' => forall_bits k' (2 * acc) P && forall_bits k' (2 * acc + 1) P
  end.

(** ** Vocabulary for the further properties *)

(** What [handle_bit] needs to raise nothing: the bit count matches the
    bit buffer and a set [ss_prev_clock] comes with a [prev_bit].  Unlike
    [wf] it says nothing of [rxdata], so it survives any pin value. *)
Definition safe (s : Decoder) : Prop :=
  0 <= bitcount s <= 8 /\
  bitcount s = Z.of_nat (List.length (rxbits s)) /\
  (prev_bit s = None -> ss_prev_clock s = -1).

(** The wait conditions of the loop of [decode]. *)
Definition loop_cond (has_enable : bool) : list cond :=
  if has_enable then [[(0, "e")]; [(3, "e")]] else [[(0, "e")]].

(** The synthetic record of [decode]. *)
Definition cs_change : event :=
  Put 0 0 out_python (Packet "CS-CHANGE" PyNone PyNone).

(** An annotation the decoder is seen to emit: on [out_ann], of class
    [ann_bit], [ann_data] or [ann_data_type], with one text. *)
Definition known_ann (ev : event) : Prop :=
  exists ss es cls text,
    ev = Put ss es out_ann (Annotation cls [text]) /\
    (cls = ann_bit \/ cls = ann_data \/ cls = ann_data_type).


Definition is_type_ann (e : event) : bool :=
  match e with
  | Put _ _ out_ann (Annotation cls _) => cls =? ann_data_type
  | _ => false
  end.

(** The sample markers of the decoder are at most [u], and -1 when unset;
    the samples of the buffered bits are real sample numbers. *)
Definition marks_below (u : Z) (s : Decoder) : Prop :=
  -1 <= ss_prev_clock s <= u /\
  -1 <= ss_prev_false s <= u /\
  -1 <= ss_flag s <= u /\
  Forall (fun bn => 0 <= snd bn <= u) (rxbits s).

(** A span that starts no later than it ends; only a FLAG or ABORT may
    start at -1, before the first sample. *)
Definition span_ok (ev : event) : Prop :=
  match ev with
  | Put ss es _ (Annotation cls _) =>
      ss <= es /\ (if cls =? ann_data_type then -1 <= ss else 0 <= ss)
  | Put ss es _ (Packet _ _ _) => 0 <= ss <= es
  | Wait _ => True
  end.

(** No 0 closes a run of exactly six 1s: the bits hold no flag.  [c] is the
    length of the run of 1s so far. *)
Fixpoint flagless (c : Z) (bits : list Z) : bool :=
  match bits with
  | [] => true
  | d :: rest =>
      if d =? 1 then flagless (c + 1) rest
      else negb (c =? 6) && flagless 0 rest
  end.

(** Inside a frame: every run of 1s that a 0 closes is at most five long. *)
Fixpoint in_frame (c : Z) (bits : list Z) : bool :=
  match bits with
  | [] => true
  | d :: rest =>
      if d =? 1 then in_frame (c + 1) rest
      else (d =? 0) && (c <=? 5) && in_frame 0 rest
  end.

(** The edges whose bit is shifted inside a frame: all but the 0s that
    follow five 1s. *)
Fixpoint destuff (c : Z) (edges : list Sample) : list Sample :=
  match edges with
  | [] => []
  | x :: rest =>
      if s_data x =? 1 then x :: destuff (c + 1) rest
      else if c <? 5 then x :: destuff 0 rest
      else destuff 0 rest
  end.

(** A sample without its ENABLE pin. *)
Definition without_en (x : Sample) : Z * list bool * Z * Z :=
  (s_samplenum x, s_matched x, s_clk x, s_data x).

(** The text of a byte: two upper-case hexadecimal digits, high first. *)
Definition two_hex (z : Z) : string :=
  String (hex_digit (z / 16)) (String (hex_digit (z mod 16)) EmptyString).

Definition two_hex_ok (z : Z) : bool := String.eqb (fmt_02X z) (two_hex z).

(** A byte annotation whose text is the two digits of a byte. *)
Definition byte_text (ev : event) : Prop :=
  match ev with
  | Put _ _ _ (Annotation cls texts) =>
      cls = ann_data -> exists z, 0 <= z < 256 /\ texts = [two_hex z]
  | _ => True
  end.

(** The four ways through [find_clk_edge]: frame reset, sample skipped,
    [matched[0]] out of range, qualifying edge. *)
Inductive path (options : Options) (x : Sample) (first : bool) (s : Decoder)
  : (exn + unit) * Decoder * list event -> Prop :=
| path_reset :
    disabled options (have_en s) x = true ->
    path options x first s (inr tt, frame_cleared s, [])
| path_skip :
    disabled options (have_en s) x = false ->
    first = true \/ qualifying options (have_en s) x = false ->
    path options x first s (inr tt, s, [])
| path_index :
    disabled options (have_en s) x = false ->
    first = false ->
    s_matched x = [] ->
    path options x first s (inl IndexError, s, [])
| path_edge :
    first = false ->
    qualifying options (have_en s) x = true ->
    path options x first s
      (inr tt, stepped (s_samplenum x) (s_data x) s,
       step_events (s_samplenum x) s).

(** ** Concrete inputs for the further properties *)

(** The ASCII bytes of "123456789". *)
Definition ex_message : list Z := [49; 50; 51; 52; 53; 54; 55; 56; 57].

(** Without ENABLE: six 1s from [reset], before the 0 that closes them. *)
Definition ex_six_ones : Decoder := state_of (feed ex_options ex_run6 reset).

(** The flag, the byte 6B and the edge that shows it. *)
Definition ex_byte_stream : list Sample :=
  ex_flag_stream ++ ex_byte ++ [ex_after_byte].

Definition ex_disable : Sample := mkSample 122 [false; true] 1 1 0.

(** Three 1s after the flag. *)
Definition ex_ones3 : list Sample := clocked 90 [true] 255 [1; 1; 1].

(** Bits with no flag among them. *)
Definition ex_noise : list Sample := clocked 10 [true] 255 [1; 0; 1; 1; 0].

(** With ENABLE wired: a byte after ENABLE was deasserted, and the edge
    that shows it. *)
Definition ex_reset_byte : list Sample :=
  clocked 130 [true; false] 1 [1; 1; 0; 1; 0; 1; 1; 0].
Definition ex_reset_next : Sample := mkSample 210 [true; false] 1 0 1.

(** [ex_flag_stream] with another level on the ENABLE pin, and the other
    polarity. *)
Definition ex_flag_stream_low : list Sample :=
  mkSample 0 [] 0 0 0 :: clocked 10 [true] 0 [0; 1; 1; 1; 1; 1; 1; 0].
Definition ex_options_low : Options := mkOptions "active-low" 1.

(** After the flag: five 1s, the stuffed 0, then 1 0 1; with 1 1 0 more,
    ten bits are kept. *)
Definition ex_stuffed_byte : list Sample :=
  clocked 90 [true] 255 [1; 1; 1; 1; 1; 0; 1; 0; 1].
Definition ex_stuffed_run : list Sample :=
  clocked 90 [true] 255 [1; 1; 1; 1; 1; 0; 1; 0; 1; 1; 1; 0].

(** * Proofs *)

(** ** The monad *)

Lemma bind_inr {A B : Type} (m : M A) (f : A -> M B) s a s1 o1 r s2 o2 :
  m s = (inr a, s1, o1) ->
  f a s1 = (r, s2, o2) ->
  bind m f s = (r, s2, o1 ++ o2).
Proof. intros Hm Hf. unfold bind. rewrite Hm, Hf. reflexivity. Qed.

Lemma bind_inl {A B : Type} (m : M A) (f : A -> M B) s e s1 o1 :
  m s = (inl e, s1, o1) ->
  bind m f s = (inl e, s1, o1).
Proof. intros Hm. unfold bind. rewrite Hm. reflexivity. Qed.

Lemma bind_silent {A B : Type} (m : M A) (f : A -> M B) s a s1 :
  m s = (inr a, s1, []) ->
  bind m f s = f a s1.
Proof.
  intros Hm. unfold bind. rewrite Hm.
  destruct (f a s1) as [[r s2] o2]. reflexivity.
Qed.

Lemma run_eta {A : Type} (r : (exn + A) * Decoder * list event) :
  r = (outcome r, state_of r, events_of r).
Proof. destruct r as [[o s] e]. reflexivity. Qed.

(** Unfolds the primitives of the monad and the field assignments. *)
Ltac exec :=
  cbv [assign modify get put emit raise ret bind outcome state_of events_of];
  cbn [fst snd app bitcount rxdata rxbits rxbytes prev_bit ss_prev_clock
       ss_prev_false flag_found ss_flag have_en one_count prev_one_count
       samplerate set_bitcount set_rxdata set_rxbits set_rxbytes set_prev_bit
       set_ss_prev_clock set_ss_prev_false set_flag_found set_ss_flag
       set_have_en set_one_count set_prev_one_count].

(** ** The blocks of [handle_bit] against their closed forms *)

Lemma shift_bit_eq samplenum data s :
  0 <= bitcount s ->
  shift_bit samplenum data s = (inr tt, shifted samplenum data s, []).
Proof.
  intros Hb. unfold shift_bit, shifted. exec.
  destruct (flag_found s); [|reflexivity].
  destruct (Z.ltb_spec (bitcount s) 0); [lia|]. reflexivity.
Qed.

Lemma display_bit_eq samplenum data s :
  (prev_bit s = None -> ss_prev_clock s = -1) ->
  handle_bit_display_bit samplenum data s
  = (inr tt, shown samplenum data s, bit_events samplenum s).
Proof.
  intros Hp. unfold handle_bit_display_bit, shown, bit_events. exec.
  destruct (Z.eqb_spec (ss_prev_clock s) (-1)) as [E|E]; cbn [negb].
  - reflexivity.
  - destruct (prev_bit s) as [b|]; [reflexivity|].
    exfalso. apply E, Hp. reflexivity.
Qed.

Lemma flag_eq samplenum s :
  handle_bit_flag samplenum s = (inr tt, s, flag_events samplenum s).
Proof.
  unfold handle_bit_flag, flag_events. exec.
  destruct (prev_one_count s =? 6); [reflexivity|].
  destruct (prev_one_count s >? 6); reflexivity.
Qed.

Lemma display_data_eq samplenum s :
  (bitcount s = 8 -> rxbits s <> []) ->
  handle_bit_display_data samplenum s
  = (inr tt, flushed s, data_events samplenum s).
Proof.
  intros Hr. unfold handle_bit_display_data, flushed, data_events. exec.
  destruct (Z.eqb_spec (bitcount s) 8) as [E|E]; [|reflexivity].
  destruct (rxbits s) as [|[b ss] l]; [exfalso; now apply Hr|].
  reflexivity.
Qed.

Lemma shifted_one_count samplenum data s :
  one_count (shifted samplenum data s) = one_count s.
Proof. unfold shifted. destruct (flag_found s); reflexivity. Qed.

Lemma count_ones_eq samplenum data s :
  0 <= bitcount s ->
  handle_bit_count_ones samplenum data s
  = (inr tt, counted samplenum data s, []).
Proof.
  intros Hb. unfold handle_bit_count_ones, counted.
  destruct (data =? 1).
  - erewrite bind_inr; [|apply shift_bit_eq; assumption|reflexivity].
    exec. rewrite shifted_one_count. reflexivity.
  - exec.
    destruct (one_count s >? 5); exec;
      (destruct (one_count s =? 6); exec; [reflexivity|]);
      (destruct (one_count s <? 5); exec; [|reflexivity]).
    + rewrite shift_bit_eq by assumption. rewrite shifted_one_count.
      reflexivity.
    + rewrite shift_bit_eq by assumption. rewrite shifted_one_count.
      reflexivity.
Qed.

Lemma reg_inv_nonempty s :
  reg_inv s -> bitcount s = 8 -> rxbits s <> [].
Proof.
  intros (_ & Hl & _) H8 E. rewrite E, H8 in Hl. discriminate Hl.
Qed.

(** A qualifying edge on a well-formed decoder raises nothing and is the
    closed form. *)
Lemma handle_bit_eq samplenum clk data en s :
  wf s ->
  handle_bit samplenum clk data en s
  = (inr tt, stepped samplenum data s, step_events samplenum s).
Proof.
  intros [Hr Hp]. unfold handle_bit, stepped, step_events.
  assert (Hb : 0 <= bitcount (flushed (shown samplenum data s))).
  { unfold flushed, shown. cbn. destruct Hr as (Hb & _).
    destruct (bitcount s =? 8); cbn; lia. }
  erewrite bind_inr; [|apply display_bit_eq; exact Hp|].
  2:{ erewrite bind_inr; [|apply flag_eq|].
      2:{ erewrite bind_inr; [|apply display_data_eq|apply count_ones_eq, Hb].
          - reflexivity.
          - cbn. now apply reg_inv_nonempty. }
      reflexivity. }
  rewrite app_nil_r. reflexivity.
Qed.

(** ** Arithmetic of the receive register *)

Lemma land_pow2_small x b :
  0 <= b -> 0 <= x < 2 ^ b -> Z.land x (2 ^ b) = 0.
Proof.
  intros Hb Hx. apply Z.bits_inj'. intros n Hn.
  rewrite Z.land_spec, Z.bits_0, Z.pow2_bits_eqb by lia.
  destruct (Z.eqb_spec b n) as [<-|]; [|apply andb_false_r].
  rewrite andb_true_r.
  destruct (Z.eq_dec x 0) as [->|]; [apply Z.bits_0|].
  apply Z.bits_above_log2; [lia|]. apply Z.log2_lt_pow2; lia.
Qed.

(** [rxdata |= data << bitcount] sets bit [bitcount]. *)
Lemma lor_shift_add x b d :
  0 <= b -> 0 <= x < 2 ^ b -> d = 0 \/ d = 1 ->
  Z.lor x (Z.shiftl d b) = x + d * 2 ^ b.
Proof.
  intros Hb Hx [->| ->].
  - rewrite Z.shiftl_0_l, Z.lor_0_r. lia.
  - rewrite Z.shiftl_1_l.
    pose proof (Z.add_lor_land x (2 ^ b)) as H.
    rewrite land_pow2_small in H by assumption. lia.
Qed.

Lemma lor_shift_bound x b d :
  0 <= b -> 0 <= x < 2 ^ b -> d = 0 \/ d = 1 ->
  0 <= Z.lor x (Z.shiftl d b) < 2 ^ (b + 1).
Proof.
  intros Hb Hx Hd. rewrite lor_shift_add by assumption.
  rewrite Z.pow_add_r, Z.pow_1_r by lia. destruct Hd; subst; lia.
Qed.

(** ** Fields after one qualifying edge *)

Ltac fields :=
  cbn [bitcount rxdata rxbits rxbytes prev_bit ss_prev_clock
       ss_prev_false flag_found ss_flag have_en one_count prev_one_count
       samplerate set_bitcount set_rxdata set_rxbits set_rxbytes set_prev_bit
       set_ss_prev_clock set_ss_prev_false set_flag_found set_ss_flag
       set_have_en set_one_count set_prev_one_count] in *.

(** Splits on every comparison the closed forms branch on, innermost
    first. *)
Ltac no_if t :=
  lazymatch t with
  | context [if _ then _ else _] => fail
  | _ => idtac
  end.

Ltac split_ifs :=
  repeat (fields;
    match goal with
    | |- context [if ?a =? ?b then _ else _] =>
        no_if a; destruct (Z.eqb_spec a b)
    | |- context [if ?a >? ?b then _ else _] =>
        no_if a; destruct (Z.gtb_spec a b)
    | |- context [if ?a <? ?b then _ else _] =>
        no_if a; destruct (Z.ltb_spec a b)
    | |- context [if flag_found ?s then _ else _] =>
        no_if s; destruct (flag_found s) eqn:?
    end); fields.

Ltac open_step :=
  unfold stepped, counted, shifted, flushed, shown; split_ifs.

Lemma stepped_have_en samplenum data s :
  have_en (stepped samplenum data s) = have_en s.
Proof. open_step; reflexivity. Qed.

Lemma stepped_wf samplenum data s :
  wf s -> data = 0 \/ data = 1 -> wf (stepped samplenum data s).
Proof.
  intros [(Hb & Hl & Hx) Hp] Hd. unfold wf, reg_inv.
  assert (H1 : 0 <= Z.lor 0 (Z.shiftl data 0) < 2 ^ (0 + 1))
    by (apply lor_shift_bound; [lia|cbn; lia|exact Hd]).
  assert (H2 : 0 <= Z.lor (rxdata s) (Z.shiftl data (bitcount s))
               < 2 ^ (bitcount s + 1))
    by (apply lor_shift_bound; [lia|exact Hx|exact Hd]).
  open_step; try rewrite length_app; cbn [List.length];
    repeat split; try discriminate; try lia.
Qed.

(** A 1 bit prolongs the run and touches nothing the classification of the
    run depends on. *)
Lemma stepped_one samplenum s :
  let s' := stepped samplenum 1 s in
  one_count s' = one_count s + 1 /\
  prev_one_count s' = prev_one_count s /\
  ss_prev_false s' = ss_prev_false s /\
  ss_flag s' = ss_flag s /\
  flag_found s' = flag_found s.
Proof. cbv zeta. open_step; repeat split; congruence. Qed.

(** A 0 bit closes the run. *)
Lemma stepped_zero samplenum s :
  let s' := stepped samplenum 0 s in
  one_count s' = 0 /\
  prev_one_count s' = one_count s /\
  ss_prev_false s' = samplenum /\
  ss_flag s' = (if one_count s >? 5 then ss_prev_false s else ss_flag s).
Proof.
  cbv zeta. destruct (Z.gtb_spec (one_count s) 5);
    open_step; repeat split; try reflexivity; lia.
Qed.

(** ** Runs of qualifying edges *)

Lemma steps_app es1 : forall es2 s,
  steps (es1 ++ es2) s = steps es2 (steps es1 s).
Proof. induction es1 as [|x es1 IH]; intros; cbn; [reflexivity|apply IH]. Qed.

Lemma steps_wf es : forall s,
  wf s -> Forall is_bit es -> wf (steps es s).
Proof.
  induction es as [|x es IH]; intros s Hwf Hb; [exact Hwf|].
  inversion Hb; subst. cbn. apply IH; [apply stepped_wf|]; assumption.
Qed.

Lemma steps_have_en es : forall s, have_en (steps es s) = have_en s.
Proof.
  induction es as [|x es IH]; intros s; [reflexivity|].
  cbn. rewrite IH. apply stepped_have_en.
Qed.

(** A run of 1 bits is counted, and leaves the markers of the previous 0
    in place. *)
Lemma steps_ones es : forall s,
  Forall (fun x => s_data x = 1) es ->
  one_count (steps es s) = one_count s + Z.of_nat (List.length es) /\
  prev_one_count (steps es s) = prev_one_count s /\
  ss_prev_false (steps es s) = ss_prev_false s /\
  ss_flag (steps es s) = ss_flag s /\
  flag_found (steps es s) = flag_found s.
Proof.
  induction es as [|x es IH]; intros s H.
  - cbn. repeat split; lia.
  - inversion H as [|? ? Hx Hes]; subst. cbn [steps List.length].
    rewrite Hx. destruct (IH (stepped (s_samplenum x) 1 s) Hes)
      as (I1 & I2 & I3 & I4 & I5).
    destruct (stepped_one (s_samplenum x) s) as (S1 & S2 & S3 & S4 & S5).
    repeat split; try congruence. lia.
Qed.

Lemma ones_are_bits (es : list Sample) :
  Forall (fun x => s_data x = 1) es -> Forall is_bit es.
Proof.
  intros H. eapply Forall_impl; [|exact H]. intros x Hx. right. exact Hx.
Qed.

(** The 0 that ends a run of six: flag found, register cleared. *)
Lemma stepped_flag samplenum s :
  one_count s = 6 ->
  let s' := stepped samplenum 0 s in
  flag_found s' = true /\ rxdata s' = 0 /\ bitcount s' = 0 /\
  rxbits s' = [].
Proof. intros H. cbv zeta. open_step; repeat split; try reflexivity; lia. Qed.

(** The 0 that ends a run of more than six: abort. *)
Lemma stepped_abort samplenum s :
  one_count s > 6 ->
  flag_found (stepped samplenum 0 s) = false.
Proof. intros H. open_step; try reflexivity; lia. Qed.

(** ** Bytes *)

Lemma data_ann_step_events samplenum s :
  filter is_data_ann (step_events samplenum s) = data_events samplenum s.
Proof.
  unfold step_events, bit_events, flag_events, data_events.
  rewrite !filter_app.
  assert (B : filter is_data_ann
                (if negb (ss_prev_clock s =? -1)
                 then match prev_bit s with
                      | Some b =>
                          [Put (ss_prev_clock s) samplenum out_ann
                             (Annotation ann_bit [fmt_d b])]
                      | None => []
                      end
                 else []) = []).
  { destruct (negb (ss_prev_clock s =? -1)); [|reflexivity].
    destruct (prev_bit s); reflexivity. }
  rewrite B. cbn [app].
  destruct (prev_one_count s =? 6); cbn [filter is_data_ann app].
  2: destruct (prev_one_count s >? 6); cbn [filter is_data_ann app].
  all: change (ann_data_type =? ann_data) with false; cbv iota; cbn [app].
  all: destruct (bitcount s =? 8); [|reflexivity].
  all: destruct (rxbits s) as [|[b ss] l]; reflexivity.
Qed.

(** A bit that is shifted: [flag_found] holds and the bit is a 1, or a 0
    after fewer than five 1s. *)
Lemma stepped_shifting samplenum data s :
  wf s ->
  flag_found s = true ->
  data = 1 \/ (data = 0 /\ one_count s < 5) ->
  let s' := stepped samplenum data s in
  let full := bitcount s =? 8 in
  flag_found s' = true /\
  one_count s' = (if data =? 1 then one_count s + 1 else 0) /\
  bitcount s' = (if full then 0 else bitcount s) + 1 /\
  rxbits s' = (if full then [] else rxbits s) ++ [(data, samplenum)] /\
  rxdata s'
  = Z.lor (if full then 0 else rxdata s)
      (Z.shiftl data (if full then 0 else bitcount s)).
Proof.
  intros Hwf Hf Hd. cbv zeta.
  destruct Hd as [->|[-> Hc]];
    open_step; repeat split; try reflexivity; try congruence; lia.
Qed.

Lemma unstuffed_cons c d rest :
  unstuffed c (d :: rest) = true ->
  (d = 1 \/ (d = 0 /\ c < 5)) /\
  unstuffed (if d =? 1 then c + 1 else 0) rest = true.
Proof.
  cbn [unstuffed]. destruct (Z.eqb_spec d 1) as [->|Hd].
  - intros H. split; [left; reflexivity|exact H].
  - intros H. apply andb_prop in H as [H Hr]. apply andb_prop in H as [H0 Hc].
    apply Z.eqb_eq in H0. apply Z.ltb_lt in Hc.
    split; [right; split; assumption|exact Hr].
Qed.

Lemma unstuffed_bits c bits :
  unstuffed c bits = true -> Forall (fun d => d = 0 \/ d = 1) bits.
Proof.
  revert c. induction bits as [|d rest IH]; intros c H; [constructor|].
  apply unstuffed_cons in H as [Hd Hr].
  constructor; [tauto|]. eapply IH, Hr.
Qed.

(** With [flag_found] set and no stuffing, every edge shifts its bit and a
    byte is shown on every eighth one. *)
Lemma steps_unstuffed es : forall s,
  wf s ->
  flag_found s = true ->
  unstuffed (one_count s) (map s_data es) = true ->
  es <> [] ->
  let n := Z.of_nat (List.length es) in
  flag_found (steps es s) = true /\
  Z.of_nat (List.length (filter is_data_ann (steps_events es s)))
  = (bitcount s + n - 1) / 8 /\
  bitcount (steps es s) = (bitcount s + n - 1) mod 8 + 1.
Proof.
  induction es as [|x es IH]; intros s Hwf Hf Hu Hne; [contradiction|].
  cbn [map] in Hu. apply unstuffed_cons in Hu as [Hd Hr].
  destruct (stepped_shifting (s_samplenum x) (s_data x) s Hwf Hf Hd)
    as (S1 & S2 & S3 & _).
  assert (Hb : s_data x = 0 \/ s_data x = 1) by tauto.
  pose proof (stepped_wf (s_samplenum x) (s_data x) s Hwf Hb) as Hwf'.
  assert (Hcount : Z.of_nat (List.length (data_events (s_samplenum x) s))
                   = bitcount s / 8).
  { unfold data_events. destruct Hwf as [(Hb8 & Hl & _) _].
    destruct (Z.eqb_spec (bitcount s) 8) as [E|E].
    - rewrite E. destruct (rxbits s) as [|[b ss] l];
        [rewrite E in Hl; discriminate|reflexivity].
    - cbn. symmetry. apply Z.div_small. lia. }
  assert (Hb8 : 0 <= bitcount s <= 8) by apply Hwf.
  cbv zeta. cbn [steps steps_events List.length].
  rewrite filter_app, length_app, data_ann_step_events, Nat2Z.inj_add, Hcount.
  destruct es as [|y es'].
  - cbn [steps steps_events filter List.length]. rewrite S3.
    split; [exact S1|].
    destruct (Z.eqb_spec (bitcount s) 8);
      split; Z.div_mod_to_equations; lia.
  - rewrite <- S2 in Hr.
    destruct (IH _ Hwf' S1 Hr ltac:(discriminate)) as (I1 & I2 & I3).
    cbv zeta in I2, I3. rewrite I2, I3, S3.
    split; [exact I1|].
    destruct (Z.eqb_spec (bitcount s) 8);
      split; Z.div_mod_to_equations; lia.
Qed.

(** The first eight bits after an empty register, in order of arrival. *)
Lemma steps_fill es : forall s,
  wf s ->
  flag_found s = true ->
  unstuffed (one_count s) (map s_data es) = true ->
  bitcount s + Z.of_nat (List.length es) <= 8 ->
  bitcount (steps es s) = bitcount s + Z.of_nat (List.length es) /\
  rxbits (steps es s)
  = rxbits s ++ map (fun x => (s_data x, s_samplenum x)) es /\
  rxdata (steps es s)
  = rxdata s + 2 ^ bitcount s * byte_of (map s_data es).
Proof.
  induction es as [|x es IH]; intros s Hwf Hf Hu Hlen.
  - cbn. rewrite app_nil_r. repeat split; lia.
  - cbn [map] in Hu. apply unstuffed_cons in Hu as [Hd Hr].
    destruct (stepped_shifting (s_samplenum x) (s_data x) s Hwf Hf Hd)
      as (S1 & S2 & S3 & S4 & S5).
    assert (Hb : s_data x = 0 \/ s_data x = 1) by tauto.
    pose proof (stepped_wf (s_samplenum x) (s_data x) s Hwf Hb) as Hwf'.
    cbn [List.length] in Hlen.
    destruct Hwf as [(Hb8 & Hl & Hx) _].
    destruct (Z.eqb_spec (bitcount s) 8) as [E|E]; [lia|].
    rewrite <- S2 in Hr.
    destruct (IH _ Hwf' S1 Hr ltac:(lia)) as (I1 & I2 & I3).
    cbn [steps map byte_of List.length]. rewrite I1, I2, I3, S3, S4, S5.
    rewrite lor_shift_add by (assumption || lia).
    rewrite <- app_assoc. cbn [app].
    rewrite Z.pow_add_r, Z.pow_1_r by lia.
    repeat split; lia.
Qed.

(** ** What the methods raise and emit *)

Lemma sat_ret {A : Type} P Q (a : A) : sat P Q (ret a).
Proof. intros s. split; [discriminate|constructor]. Qed.

Lemma sat_get P Q : sat P Q get.
Proof. intros s. split; [discriminate|constructor]. Qed.

Lemma sat_assign {V : Type} P Q (setter : V -> Decoder -> Decoder) e :
  sat P Q (assign setter e).
Proof. intros s. split; [discriminate|constructor]. Qed.

Lemma sat_raise {A : Type} (P : exn -> Prop) Q e : P e -> sat P Q (@raise A e).
Proof.
  intros H s. split; [|constructor].
  intros e' E. injection E as <-. exact H.
Qed.

Lemma sat_emit P (Q : event -> Prop) ev : Q ev -> sat P Q (emit ev).
Proof.
  intros H s. split; [discriminate|]. constructor; [exact H|constructor].
Qed.

Lemma sat_bind {A B : Type} P Q (m : M A) (f : A -> M B) :
  sat P Q m -> (forall a, sat P Q (f a)) -> sat P Q (bind m f).
Proof.
  intros Hm Hf s. specialize (Hm s). unfold bind, outcome, events_of in *.
  destruct (m s) as [[[e|a] s1] o1]; cbn [fst snd] in *.
  { destruct Hm as [H1 H2]. split; [|exact H2].
    intros e0 E. injection E as <-. apply H1. reflexivity. }
  specialize (Hf a s1). unfold outcome, events_of in Hf.
  destruct (f a s1) as [[r s2] o2]. cbn [fst snd] in *.
  destruct Hm as [_ Hm], Hf as [Hf1 Hf2].
  split; [exact Hf1|]. apply Forall_app. split; assumption.
Qed.

Lemma sat_weaken {A : Type} (P P' : exn -> Prop) (Q Q' : event -> Prop)
    (m : M A) :
  (forall e, P e -> P' e) -> (forall ev, Q ev -> Q' ev) ->
  sat P Q m -> sat P' Q' m.
Proof.
  intros HP HQ H s. destruct (H s) as [H1 H2]. split.
  - intros e E. apply HP, H1, E.
  - eapply Forall_impl; [exact HQ|exact H2].
Qed.

(** Walks through a method, splitting on its tests. *)
Ltac sat_walk_using known :=
  repeat first
    [ known | apply sat_ret | apply sat_get | apply sat_assign
    | apply sat_bind; [|intros ?]
    | match goal with
      | |- sat _ _ (if ?c then _ else _) => destruct c
      | |- sat _ _ (match ?x with _ => _ end) => destruct x
      | |- sat _ _ (let _ := _ in _) => cbv zeta
      end ].

Ltac sat_walk := sat_walk_using fail.

Lemma sat_put_ann P ss es data : sat P to_out_ann (put ss es out_ann data).
Proof. apply sat_emit. exists ss, es, data. reflexivity. Qed.

Ltac sat_leaf :=
  first
    [ apply sat_put_ann
    | apply sat_raise; unfold runtime_error; tauto ].

Lemma sat_shift_bit samplenum data :
  sat runtime_error to_out_ann (shift_bit samplenum data).
Proof. unfold shift_bit. sat_walk; sat_leaf. Qed.

Lemma sat_handle_bit samplenum clk data en :
  sat runtime_error to_out_ann (handle_bit samplenum clk data en).
Proof.
  unfold handle_bit, handle_bit_display_bit, handle_bit_flag,
    handle_bit_display_data, handle_bit_count_ones.
  sat_walk; first [apply sat_shift_bit | sat_leaf].
Qed.

Lemma sat_find_clk_edge options samplenum matched clk data en first :
  sat runtime_error to_out_ann
    (find_clk_edge options samplenum matched clk data en first).
Proof.
  unfold find_clk_edge, frame_reset.
  sat_walk_using ltac:(apply sat_handle_bit); sat_leaf.
Qed.

Lemma sat_wait arg pending : sat loop_error loop_event (wait arg pending).
Proof.
  unfold wait. sat_walk.
  - apply sat_emit. right. exists arg. reflexivity.
  - apply sat_raise. right. reflexivity.
Qed.

Lemma sat_find_in_loop options samplenum matched clk data en first :
  sat loop_error loop_event
    (find_clk_edge options samplenum matched clk data en first).
Proof.
  eapply sat_weaken; [| |apply sat_find_clk_edge].
  - intros e H. left. exact H.
  - intros ev H. left. exact H.
Qed.

Lemma sat_decode_loop options wait_cond pending :
  sat loop_error loop_event (decode_loop options wait_cond pending).
Proof.
  induction pending as [|x rest IH]; cbn [decode_loop].
  - apply sat_bind; [apply sat_wait|intros; apply sat_ret].
  - apply sat_bind; [apply sat_wait|intros].
    apply sat_bind; [apply sat_find_in_loop|intros; exact IH].
Qed.

Lemma loop_event_not_python ev : loop_event ev -> is_python ev = false.
Proof.
  intros [(ss & es & d & ->)|(arg & ->)]; reflexivity.
Qed.

Lemma loop_error_not_channel e msg : loop_error e -> e <> ChannelError msg.
Proof.
  unfold loop_error, runtime_error. intros H ->.
  decompose [or] H; discriminate.
Qed.

(** ** The three ways through [find_clk_edge] *)

Section Edges.

Variable options : Options.

Lemma find_clk_edge_disabled samplenum matched clk data en first s :
  truthy (have_en s) && negb (en_asserted options en) = true ->
  find_clk_edge options samplenum matched clk data en first s
  = (inr tt, frame_cleared s, []).
Proof.
  intros H. unfold find_clk_edge, frame_reset. exec. rewrite H. reflexivity.
Qed.

Lemma find_clk_edge_first samplenum matched clk data en s :
  truthy (have_en s) && negb (en_asserted options en) = false ->
  find_clk_edge options samplenum matched clk data en true s
  = (inr tt, s, []).
Proof.
  intros H. unfold find_clk_edge. exec. rewrite H. reflexivity.
Qed.

Lemma find_clk_edge_qualifying x s :
  qualifying options (have_en s) x = true ->
  deliver options x false s
  = handle_bit (s_samplenum x) (s_clk x) (s_data x) (s_en x) s.
Proof.
  unfold qualifying, disabled, deliver, find_clk_edge. intros H.
  apply andb_prop in H as [H Hc]. apply andb_prop in H as [Hd Hm].
  apply negb_true_iff in Hd.
  destruct (s_matched x) as [|m ms]; [discriminate|]. subst m.
  exec. rewrite Hd, Hc. cbn [negb].
  destruct (handle_bit _ _ _ _ s) as [[r s2] o2]. reflexivity.
Qed.

Lemma find_clk_edge_ignored x s :
  accepted options (have_en s) x = true ->
  qualifying options (have_en s) x = false ->
  deliver options x false s = (inr tt, s, []).
Proof.
  unfold accepted, qualifying, disabled, deliver, find_clk_edge. intros Ha Hq.
  apply andb_prop in Ha as [Hd Hm]. rewrite Hd in Hq.
  apply negb_true_iff in Hd.
  destruct (s_matched x) as [|m ms]; [discriminate|].
  exec. rewrite Hd.
  destruct m; cbn in Hq |- *; [|reflexivity].
  rewrite Hq. reflexivity.
Qed.

Lemma qualifying_accepted he x :
  qualifying options he x = true -> accepted options he x = true.
Proof.
  unfold qualifying, accepted. intros H.
  apply andb_prop in H as [H _]. apply andb_prop in H as [Hd Hm].
  rewrite Hd. destruct (s_matched x); [discriminate|reflexivity].
Qed.

Lemma frame_cleared_wf s : wf (frame_cleared s).
Proof.
  unfold wf, reg_inv, frame_cleared. cbn. repeat split; lia.
Qed.

(** ** Feeding samples *)

Lemma feed_app xs ys s s1 o1 :
  feed options xs s = (inr tt, s1, o1) ->
  feed options (xs ++ ys) s
  = (outcome (feed options ys s1), state_of (feed options ys s1),
     o1 ++ events_of (feed options ys s1)).
Proof.
  revert s s1 o1. induction xs as [|x xs IH]; intros s s1 o1 H.
  - cbn in H. injection H as <- <-. cbn.
    destruct (feed options ys s) as [[r s2] o2]. reflexivity.
  - cbn [feed app] in *. unfold bind in *.
    destruct (deliver options x false s) as [[[e|[]] s0] o0];
      [discriminate|].
    destruct (feed options xs s0) as [[r s2] o2] eqn:E.
    injection H as -> -> <-.
    rewrite (IH _ _ _ E). unfold outcome, state_of, events_of. cbn.
    rewrite app_assoc. reflexivity.
Qed.

(** Accepted samples carrying data bits: the feed raises nothing, and is
    the closed form on the qualifying edges among them. *)
Lemma feed_accepted xs : forall s,
  wf s ->
  Forall (fun x => accepted options (have_en s) x = true) xs ->
  Forall is_bit (filter (qualifying options (have_en s)) xs) ->
  feed options xs s
  = (inr tt, steps (filter (qualifying options (have_en s)) xs) s,
     steps_events (filter (qualifying options (have_en s)) xs) s).
Proof.
  induction xs as [|x xs IH]; intros s Hwf Ha Hb; [reflexivity|].
  inversion Ha as [|? ? Hx Hxs]; subst. cbn [feed filter] in *.
  destruct (qualifying options (have_en s) x) eqn:Hq.
  - inversion Hb as [|? ? Hbx Hbxs]; subst.
    pose proof (stepped_have_en (s_samplenum x) (s_data x) s) as He.
    erewrite bind_inr.
    + reflexivity.
    + fold (deliver options x false).
      rewrite find_clk_edge_qualifying by exact Hq.
      apply handle_bit_eq, Hwf.
    + cbn [steps steps_events]. rewrite <- He. apply IH.
      * apply stepped_wf; assumption.
      * rewrite He. exact Hxs.
      * rewrite He. exact Hbxs.
  - rewrite bind_silent with (a := tt) (s1 := s).
    + apply IH; assumption.
    + apply (find_clk_edge_ignored x s); assumption.
Qed.

(** Samples that are not qualifying edges (frame resets and ignored
    samples) emit nothing and keep what the next edge will annotate. *)
Lemma feed_gap xs : forall s,
  wf s ->
  Forall (fun x => skipped options (have_en s) x = true) xs ->
  exists s',
    feed options xs s = (inr tt, s', []) /\ wf s' /\
    have_en s' = have_en s /\
    prev_one_count s' = prev_one_count s /\
    ss_flag s' = ss_flag s /\
    flag_found s' = flag_found s.
Proof.
  induction xs as [|x xs IH]; intros s Hwf Hg.
  - exists s. repeat split; try reflexivity; apply Hwf.
  - inversion Hg as [|? ? Hx Hxs]; subst. cbn [feed].
    unfold skipped in Hx. apply andb_prop in Hx as [Hq Hx].
    apply negb_true_iff in Hq.
    destruct (disabled options (have_en s) x) eqn:Hd.
    + destruct (IH (frame_cleared s)) as (s' & E & W & F1 & F2 & F3 & F4).
      * apply frame_cleared_wf.
      * exact Hxs.
      * exists s'. cbn in F1, F2, F3, F4.
        refine (conj _ (conj W (conj F1 (conj F2 (conj F3 F4))))).
        rewrite bind_silent with (a := tt) (s1 := frame_cleared s);
          [exact E|].
        apply find_clk_edge_disabled. exact Hd.
    + destruct (IH s Hwf Hxs) as (s' & E & F).
      exists s'. refine (conj _ F).
      rewrite bind_silent with (a := tt) (s1 := s); [exact E|].
      apply (find_clk_edge_ignored x s); [|exact Hq].
      unfold accepted. rewrite Hd. exact Hx.
Qed.

End Edges.

(** ** [decode] *)

Section Decode.

Variable options : Options.
Variable has_channel : Z -> bool.

(** [decode] past its channel check: the prologue fixes [have_en] and the
    wait conditions, emits the synthetic record when ENABLE is not wired, and
    hands over to the sample loop. *)
Lemma decode_wired pending s :
  negb (has_channel 0) && negb (has_channel 1) = false ->
  let he := if has_channel 2 then PyInt 1 else PyBool false in
  let wait_cond :=
    if has_channel 2 then [[(0, "e")]; [(3, "e")]] else [[(0, "e")]] in
  let pre :=
    if has_channel 2 then []
    else [Put 0 0 out_python (Packet "CS-CHANGE" PyNone PyNone)] in
  let body :=
    (x <- wait (WDict []) pending ;;
     find_clk_edge options (s_samplenum x) (s_matched x) (s_clk x)
       (s_data x) (s_en x) true ;;
     decode_loop options wait_cond (tl pending)) (set_have_en he s) in
  decode options has_channel pending s
  = (outcome body, state_of body, pre ++ events_of body).
Proof.
  intros H. cbv zeta. unfold decode. rewrite H.
  rewrite bind_silent with (a := tt) (s1 := s) by reflexivity.
  rewrite bind_silent with (a := tt) (s1 := set_have_en (PyBool (has_channel 2)) s)
    by reflexivity.
  rewrite bind_silent
    with (a := set_have_en (PyBool (has_channel 2)) s)
         (s1 := set_have_en (PyBool (has_channel 2)) s) by reflexivity.
  cbn [have_en set_have_en truthy].
  destruct (has_channel 2); cbn [negb].
  - rewrite bind_silent with (a := tt) (s1 := set_have_en (PyBool true) s)
      by reflexivity.
    rewrite bind_silent
      with (a := set_have_en (PyBool true) s)
           (s1 := set_have_en (PyBool true) s) by reflexivity.
    cbn [have_en set_have_en truthy].
    rewrite bind_silent
      with (a := [[(0, "e")]; [(3, "e")]])
           (s1 := set_have_en (PyInt 1) s) by reflexivity.
    cbn [app]. apply run_eta.
  - erewrite bind_inr; [|reflexivity|].
    2:{ rewrite bind_silent
          with (a := set_have_en (PyBool false) s)
               (s1 := set_have_en (PyBool false) s) by reflexivity.
        cbn [have_en set_have_en truthy].
        rewrite bind_silent
          with (a := [[(0, "e")]])
               (s1 := set_have_en (PyBool false) s) by reflexivity.
        apply run_eta. }
    reflexivity.
Qed.

Lemma wait_first arg pending (k : Sample -> M unit) s :
  exists rest,
    events_of ((x <- wait arg pending ;; k x) s) = Wait arg :: rest.
Proof.
  unfold wait. destruct pending as [|x xs]; exec.
  - eexists. reflexivity.
  - destruct (k x s) as [[r s2] o2]. cbn. eexists. reflexivity.
Qed.

Lemma sat_samples wait_cond pending :
  sat loop_error loop_event
    (x <- wait (WDict []) pending ;;
     find_clk_edge options (s_samplenum x) (s_matched x) (s_clk x)
       (s_data x) (s_en x) true ;;
     decode_loop options wait_cond (tl pending)).
Proof.
  apply sat_bind; [apply sat_wait|intros x].
  apply sat_bind; [apply sat_find_in_loop|intros].
  apply sat_decode_loop.
Qed.


(** With ENABLE wired nothing at all goes to the Python output. *)
Lemma no_python_with_enable pending s :
  has_channel 2 = true ->
  Forall (fun ev => is_python ev = false)
    (events_of (decode options has_channel pending s)).
Proof.
  intros H2.
  destruct (negb (has_channel 0) && negb (has_channel 1)) eqn:H.
  - unfold decode. rewrite H. constructor.
  - rewrite (decode_wired pending s H). cbv zeta. rewrite H2.
    unfold events_of at 1. cbn [snd app].
    eapply Forall_impl; [exact loop_event_not_python|].
    apply sat_samples.
Qed.

End Decode.

(** ** The register invariant *)

Lemma handle_bit_type_error samplenum clk data en s :
  prev_bit s = None ->
  ss_prev_clock s <> -1 ->
  handle_bit samplenum clk data en s = (inl TypeError, s, []).
Proof.
  intros Hp Hc. unfold handle_bit. apply bind_inl.
  unfold handle_bit_display_bit. exec. rewrite Hp.
  destruct (Z.eqb_spec (ss_prev_clock s) (-1)); [contradiction|reflexivity].
Qed.

Lemma stepped_reg_inv samplenum data s :
  reg_inv s -> data = 0 \/ data = 1 -> reg_inv (stepped samplenum data s).
Proof.
  intros Hr Hd.
  assert (W : wf (set_prev_bit (Some 0) s)).
  { split; [exact Hr|discriminate]. }
  apply (stepped_wf samplenum data _ W Hd).
Qed.

Lemma handle_bit_reg_inv samplenum clk data en s :
  reg_inv s ->
  data = 0 \/ data = 1 ->
  reg_inv (state_of (handle_bit samplenum clk data en s)) /\
  outcome (handle_bit samplenum clk data en s) <> inl IndexError.
Proof.
  intros Hr Hd.
  destruct (prev_bit s) as [b|] eqn:Hp.
  - rewrite handle_bit_eq by (split; [exact Hr|congruence]).
    split; [apply stepped_reg_inv; assumption|discriminate].
  - destruct (Z.eq_dec (ss_prev_clock s) (-1)) as [Hc|Hc].
    + rewrite handle_bit_eq by (split; [exact Hr|intros _; exact Hc]).
      split; [apply stepped_reg_inv; assumption|discriminate].
    + rewrite handle_bit_type_error by assumption.
      split; [exact Hr|discriminate].
Qed.

Lemma find_clk_edge_reg_inv options samplenum matched clk data en first s :
  reg_inv s ->
  data = 0 \/ data = 1 ->
  reg_inv (state_of
             (find_clk_edge options samplenum matched clk data en first s)).
Proof.
  intros Hr Hd.
  destruct (truthy (have_en s) && negb (en_asserted options en)) eqn:Hdis.
  - rewrite find_clk_edge_disabled by exact Hdis. apply frame_cleared_wf.
  - destruct first.
    + rewrite find_clk_edge_first by exact Hdis. exact Hr.
    + unfold find_clk_edge. exec. rewrite Hdis.
      destruct matched as [|m ms]; [exact Hr|].
      destruct m; cbn [negb]; [|exact Hr].
      destruct (cpol options =? clk); cbn [negb]; [|exact Hr].
      pose proof (handle_bit_reg_inv samplenum clk data en s Hr Hd) as [H _].
      unfold state_of in H.
      destruct (handle_bit samplenum clk data en s) as [[r s2] o2].
      exact H.
Qed.

Lemma decode_loop_reg_inv options wait_cond pending : forall s,
  reg_inv s ->
  Forall is_bit pending ->
  reg_inv (state_of (decode_loop options wait_cond pending s)).
Proof.
  induction pending as [|x rest IH]; intros s Hr Hb; [exact Hr|].
  inversion Hb as [|? ? Hx Hrest]; subst.
  pose proof (find_clk_edge_reg_inv options (s_samplenum x) (s_matched x)
                (s_clk x) (s_data x) (s_en x) false s Hr Hx) as H.
  cbn [decode_loop]. unfold wait. exec.
  unfold state_of in H.
  destruct (find_clk_edge _ _ _ _ _ _ _ s) as [[[e|[]] s1] o1];
    cbn [fst snd] in *; [exact H|].
  specialize (IH s1 H Hrest). unfold state_of in IH.
  destruct (decode_loop options wait_cond rest s1) as [[r s2] o2].
  exact IH.
Qed.

Lemma decode_reg_inv options has_channel pending s :
  reg_inv s ->
  Forall is_bit pending ->
  reg_inv (state_of (decode options has_channel pending s)).
Proof.
  intros Hr Hb.
  destruct (negb (has_channel 0) && negb (has_channel 1)) eqn:H.
  - unfold decode. rewrite H. exact Hr.
  - rewrite (decode_wired options has_channel pending s H). cbv zeta.
    unfold state_of at 1. cbn [fst snd].
    set (he := if has_channel 2 then PyInt 1 else PyBool false).
    set (wc := if has_channel 2 then _ else _).
    assert (Hr' : reg_inv (set_have_en he s)) by exact Hr.
    revert Hr'. generalize (set_have_en he s). intros s0 Hr0.
    unfold wait. exec.
    destruct pending as [|x rest]; [exact Hr0|].
    inversion Hb as [|? ? Hx Hrest]; subst. cbn [tl].
    pose proof (find_clk_edge_reg_inv options (s_samplenum x) (s_matched x)
                  (s_clk x) (s_data x) (s_en x) true s0 Hr0 Hx) as H1.
    unfold state_of in H1.
    destruct (find_clk_edge _ _ _ _ _ _ _ s0) as [[[e|[]] s1] o1];
      cbn [fst snd] in *; [exact H1|].
    pose proof (decode_loop_reg_inv options wc rest s1 H1 Hrest) as H2.
    unfold state_of in H2.
    destruct (decode_loop options wc rest s1) as [[r s2] o2].
    exact H2.
Qed.

(** * The claims *)

Section Claims.

Variable options : Options.
Variable has_channel : Z -> bool.

(** What a run of 1 bits closed by a 0 leaves, whatever the length of the
    run. *)
Lemma feed_run_then_zero s run x :
  wf s ->
  Forall (fun e => accepted options (have_en s) e = true) run ->
  Forall (fun e => s_data e = 1) (filter (qualifying options (have_en s)) run) ->
  qualifying options (have_en s) x = true ->
  s_data x = 0 ->
  exists s1 o1,
    let k := Z.of_nat (List.length (filter (qualifying options (have_en s)) run)) in
    let s0 := steps (filter (qualifying options (have_en s)) run) s in
    feed options (run ++ [x]) s = (inr tt, s1, o1) /\
    s1 = stepped (s_samplenum x) 0 s0 /\
    one_count s0 = one_count s + k /\
    wf s1 /\ have_en s1 = have_en s /\
    prev_one_count s1 = one_count s + k /\
    ss_flag s1 = (if one_count s + k >? 5 then ss_prev_false s else ss_flag s).
Proof.
  intros Hwf Ha H1 Hq H0.
  set (he := have_en s) in *.
  set (es := filter (qualifying options he) run) in *.
  assert (Hf : filter (qualifying options he) (run ++ [x]) = es ++ [x]).
  { rewrite filter_app. cbn. rewrite Hq. reflexivity. }
  assert (Hbits : Forall is_bit (es ++ [x])).
  { apply Forall_app. split; [apply ones_are_bits, H1|].
    constructor; [left; exact H0|constructor]. }
  pose proof (feed_accepted options (run ++ [x]) s Hwf) as E.
  fold he in E. rewrite Hf in E.
  specialize (E ltac:(apply Forall_app; split;
                      [exact Ha|constructor;
                        [apply qualifying_accepted, Hq|constructor]])
                Hbits).
  destruct (steps_ones es s H1) as (C1 & C2 & C3 & C4 & C5).
  rewrite steps_app in E. cbn [steps] in E. rewrite H0 in E.
  destruct (stepped_zero (s_samplenum x) (steps es s)) as (Z1 & Z2 & Z3 & Z4).
  eexists. eexists. cbv zeta.
  split; [exact E|]. split; [reflexivity|]. split; [exact C1|].
  split.
  { apply stepped_wf; [|left; reflexivity].
    apply steps_wf; [exact Hwf|apply ones_are_bits, H1]. }
  split; [rewrite stepped_have_en; apply steps_have_en|].
  split; [rewrite Z2; exact C1|].
  rewrite Z4, C1, C3, C4. reflexivity.
Qed.

(** The edge after a closed run, with anything but qualifying edges in
    between: [handle_bit] runs on a state that still has the run's
    [prev_one_count] and [ss_flag]. *)
Lemma next_edge_after_gap s1 gap y :
  wf s1 ->
  Forall (fun e => skipped options (have_en s1) e = true) gap ->
  qualifying options (have_en s1) y = true ->
  exists s2,
    feed options gap s1 = (inr tt, s2, []) /\
    prev_one_count s2 = prev_one_count s1 /\
    ss_flag s2 = ss_flag s1 /\
    deliver options y false s2
    = (inr tt, stepped (s_samplenum y) (s_data y) s2,
       step_events (s_samplenum y) s2).
Proof.
  intros Hwf Hg Hq.
  destruct (feed_gap options gap s1 Hwf Hg) as (s2 & E & W & F1 & F2 & F3 & _).
  exists s2. repeat split; try assumption.
  rewrite <- F1 in Hq.
  rewrite (find_clk_edge_qualifying options y s2 Hq).
  apply handle_bit_eq, W.
Qed.

(** C1: on a qualifying edge that delivers a 0 right after a run of exactly
    six 1 bits (the [one_count s] already counted and the 1 bits of [run]),
    [handle_bit] sets [flag_found] and clears [rxdata], [bitcount] and
    [rxbits], whatever they held; the next qualifying edge emits a FLAG
    annotation from the flag's start sample (the sample of the 0 before the
    run) to its own sample. *)
Theorem flag_after_six_ones s run x gap y :
  wf s ->
  Forall (fun e => accepted options (have_en s) e = true) run ->
  Forall (fun e => s_data e = 1) (filter (qualifying options (have_en s)) run) ->
  one_count s
  + Z.of_nat (List.length (filter (qualifying options (have_en s)) run)) = 6 ->
  qualifying options (have_en s) x = true ->
  s_data x = 0 ->
  Forall (fun e => skipped options (have_en s) e = true) gap ->
  qualifying options (have_en s) y = true ->
  let r1 := feed options (run ++ [x]) s in
  let r2 := feed options gap (state_of r1) in
  let r3 := deliver options y false (state_of r2) in
  outcome r1 = inr tt /\
  flag_found (state_of r1) = true /\
  rxdata (state_of r1) = 0 /\
  bitcount (state_of r1) = 0 /\
  rxbits (state_of r1) = [] /\
  outcome r2 = inr tt /\
  outcome r3 = inr tt /\
  In (Put (ss_prev_false s) (s_samplenum y) out_ann
        (Annotation ann_data_type ["FLAG"]))
     (events_of r3).
Proof.
  intros Hwf Ha H1 Hlen Hq H0 Hg Hy.
  destruct (feed_run_then_zero s run x Hwf Ha H1 Hq H0)
    as (s1 & o1 & E & Es & Ec & W & He & Hp & Hf).
  cbv zeta in *. rewrite Hlen in *.
  destruct (stepped_flag (s_samplenum x) _ Ec) as (F1 & F2 & F3 & F4).
  rewrite <- Es in F1, F2, F3, F4.
  rewrite <- He in Hg, Hy.
  destruct (next_edge_after_gap s1 gap y W Hg Hy) as (s2 & G & P & Fl & Y).
  rewrite E. unfold state_of, outcome, events_of. cbn [fst snd].
  rewrite G. cbn [fst snd]. rewrite Y. cbn [fst snd].
  repeat split; try assumption.
  unfold step_events, flag_events. rewrite P, Hp, Fl, Hf.
  change (6 =? 6) with true. change (6 >? 5) with true. cbv iota.
  apply in_or_app. right. apply in_or_app. left. left. reflexivity.
Qed.

Lemma sorted_span (a : Z) (run : list Sample) x gap y :
  StronglySorted Z.le (a :: map s_samplenum (run ++ x :: gap ++ [y])) ->
  Forall (fun e => a <= s_samplenum e <= s_samplenum y) run.
Proof.
  intros H. apply StronglySorted_inv in H as [Hs Ha].
  rewrite Forall_forall in Ha.
  induction run as [|e run IH]; [constructor|].
  cbn [app map] in Hs. apply StronglySorted_inv in Hs as [Hs He].
  rewrite Forall_forall in He.
  constructor.
  - split.
    + apply Ha. cbn. left. reflexivity.
    + apply He. apply in_map. apply in_or_app. right. right.
      apply in_or_app. right. left. reflexivity.
  - apply IH; [exact Hs|].
    intros z Hz. apply Ha. cbn. right. exact Hz.
Qed.

(** C3: a run of more than six 1 bits (the [one_count s] already counted
    and the 1 bits of [run]) closed by a 0 clears [flag_found] and raises
    nothing; decoding goes on, and the next qualifying edge emits an ABORT
    annotation from the sample of the 0 before the run to its own sample;
    sample numbers increase, so this span covers the run. *)
Theorem abort_after_long_run s run x gap y :
  wf s ->
  Forall (fun e => accepted options (have_en s) e = true) run ->
  Forall (fun e => s_data e = 1) (filter (qualifying options (have_en s)) run) ->
  one_count s
  + Z.of_nat (List.length (filter (qualifying options (have_en s)) run)) > 6 ->
  qualifying options (have_en s) x = true ->
  s_data x = 0 ->
  Forall (fun e => skipped options (have_en s) e = true) gap ->
  qualifying options (have_en s) y = true ->
  StronglySorted Z.le
    (ss_prev_false s :: map s_samplenum (run ++ x :: gap ++ [y])) ->
  let r1 := feed options (run ++ [x]) s in
  let r2 := feed options gap (state_of r1) in
  let r3 := deliver options y false (state_of r2) in
  outcome r1 = inr tt /\
  flag_found (state_of r1) = false /\
  outcome r2 = inr tt /\
  outcome r3 = inr tt /\
  exists ss es,
    In (Put ss es out_ann (Annotation ann_data_type ["ABORT"])) (events_of r3) /\
    ss = ss_prev_false s /\ es = s_samplenum y /\
    Forall (fun e => ss <= s_samplenum e <= es) run.
Proof.
  intros Hwf Ha H1 Hlen Hq H0 Hg Hy Hord.
  destruct (feed_run_then_zero s run x Hwf Ha H1 Hq H0)
    as (s1 & o1 & E & Es & Ec & W & He & Hp & Hf).
  cbv zeta in *.
  set (k := one_count s
            + Z.of_nat (List.length
                          (filter (qualifying options (have_en s)) run))) in *.
  assert (Hab : flag_found s1 = false).
  { rewrite Es. apply stepped_abort. lia. }
  rewrite <- He in Hg, Hy.
  destruct (next_edge_after_gap s1 gap y W Hg Hy) as (s2 & G & P & Fl & Y).
  rewrite E. unfold state_of, outcome, events_of. cbn [fst snd].
  rewrite G. cbn [fst snd]. rewrite Y. cbn [fst snd].
  repeat split; try assumption.
  exists (ss_prev_false s), (s_samplenum y).
  repeat split; try assumption; [|exact (sorted_span _ _ _ _ _ Hord)].
  unfold step_events, flag_events. rewrite P, Hp, Fl, Hf.
  destruct (Z.eqb_spec k 6); [lia|].
  destruct (Z.gtb_spec k 6); [|lia].
  destruct (Z.gtb_spec k 5); [|lia].
  apply in_or_app. right. apply in_or_app. left. left. reflexivity.
Qed.

(** One edge, seen from [find_clk_edge]. *)
Lemma find_edge_eq s x :
  wf s ->
  qualifying options (have_en s) x = true ->
  deliver options x false s
  = (inr tt, stepped (s_samplenum x) (s_data x) s,
     step_events (s_samplenum x) s).
Proof.
  intros Hwf Hq.
  rewrite (find_clk_edge_qualifying options x s Hq).
  apply handle_bit_eq, Hwf.
Qed.

(** The first three blocks of [handle_bit], up to and including the flush. *)
Lemma upto_flush_eq samplenum data s :
  wf s ->
  (handle_bit_display_bit samplenum data ;;
   handle_bit_flag samplenum ;;
   handle_bit_display_data samplenum) s
  = (inr tt, flushed (shown samplenum data s), step_events samplenum s).
Proof.
  intros [Hr Hp]. unfold step_events.
  erewrite bind_inr; [|apply display_bit_eq; exact Hp|].
  2:{ erewrite bind_inr; [|apply flag_eq|apply display_data_eq].
      - reflexivity.
      - cbn. now apply reg_inv_nonempty. }
  reflexivity.
Qed.

Lemma flushed_bitcount samplenum data s :
  reg_inv s -> 0 <= bitcount (flushed (shown samplenum data s)).
Proof.
  intros (Hb & _). unfold flushed, shown. cbn.
  destruct (bitcount s =? 8); cbn; lia.
Qed.

(** C2, as the code has it: on a qualifying edge the bit is handled by the
    block "Count number of 1", which runs on the state [s0] the three blocks
    before it leave: the register as it was, or emptied when a complete byte
    was pending.  A 0 that ends a run of exactly five 1 bits is discarded:
    the block leaves [rxdata], [rxbits] and [bitcount] as it found them.  A
    0 after fewer than five 1 bits is shifted when [flag_found] holds, and so
    is every 1 bit, on arrival. *)
Theorem stuffed_zero_not_shifted s x :
  wf s ->
  qualifying options (have_en s) x = true ->
  let r := deliver options x false s in
  let s0 :=
    state_of ((handle_bit_display_bit (s_samplenum x) (s_data x) ;;
               handle_bit_flag (s_samplenum x) ;;
               handle_bit_display_data (s_samplenum x)) s) in
  outcome r = inr tt /\
  state_of r
  = state_of (handle_bit_count_ones (s_samplenum x) (s_data x) s0) /\
  (rxdata s0, bitcount s0, rxbits s0)
  = (if bitcount s =? 8 then (0, 0, [])
     else (rxdata s, bitcount s, rxbits s)) /\
  (s_data x = 0 -> one_count s = 5 ->
   rxdata (state_of r) = rxdata s0 /\
   bitcount (state_of r) = bitcount s0 /\
   rxbits (state_of r) = rxbits s0) /\
  (s_data x = 0 -> one_count s < 5 -> flag_found s = true ->
   rxdata (state_of r) = rxdata s0 /\
   bitcount (state_of r) = bitcount s0 + 1 /\
   rxbits (state_of r) = rxbits s0 ++ [(0, s_samplenum x)]) /\
  (s_data x = 1 -> flag_found s = true ->
   rxdata (state_of r) = Z.lor (rxdata s0) (Z.shiftl 1 (bitcount s0)) /\
   bitcount (state_of r) = bitcount s0 + 1 /\
   rxbits (state_of r) = rxbits s0 ++ [(1, s_samplenum x)]).
Proof.
  intros Hwf Hq. cbv zeta. rewrite (find_edge_eq s x Hwf Hq).
  rewrite (upto_flush_eq _ _ s Hwf).
  unfold outcome, state_of. cbn [fst snd].
  split; [reflexivity|]. split.
  { rewrite count_ones_eq by (apply flushed_bitcount, Hwf). reflexivity. }
  split.
  { unfold flushed, shown. fields. destruct (bitcount s =? 8); reflexivity. }
  split; [|split].
  - intros H0 H5. rewrite H0. open_step; repeat split; try reflexivity; lia.
  - intros H0 H5 Hf. rewrite H0.
    open_step; try rewrite Z.shiftl_0_l, Z.lor_0_r;
      repeat split; try reflexivity; try congruence; lia.
  - intros H1 Hf. rewrite H1.
    open_step; repeat split; try reflexivity; try congruence; lia.
Qed.


(** C5, as the code has it: with ENABLE wired and sampled deasserted,
    [find_clk_edge] clears [rxdata], [bitcount], [rxbits], [rxbytes],
    [one_count] and [ss_prev_clock], leaves every other field as it was
    ([flag_found] among them), emits nothing and returns. *)
Theorem frame_reset_on_deassert s samplenum matched clk data en first :
  truthy (have_en s) = true ->
  en_asserted options en = false ->
  find_clk_edge options samplenum matched clk data en first s
  = (inr tt,
     {| samplerate := samplerate s;
        bitcount := 0;
        rxdata := 0;
        rxbits := [];
        rxbytes := [];
        prev_bit := prev_bit s;
        ss_prev_clock := -1;
        ss_prev_false := ss_prev_false s;
        flag_found := flag_found s;
        ss_flag := ss_flag s;
        have_en := have_en s;
        one_count := 0;
        prev_one_count := prev_one_count s |},
     []).
Proof.
  intros He Hen. apply find_clk_edge_disabled. rewrite He, Hen. reflexivity.
Qed.

(** C6, as the code has it: a non-bootstrap sample whose clock level is not
    [cpol] leaves the decoder unchanged and emits nothing, provided ENABLE
    is not wired or is asserted (the frame reset comes first otherwise). *)
Theorem other_clock_level_ignored s samplenum matched clk data en :
  truthy (have_en s) && negb (en_asserted options en) = false ->
  matched <> [] ->
  clk <> cpol options ->
  find_clk_edge options samplenum matched clk data en false s
  = (inr tt, s, []).
Proof.
  intros Hd Hm Hc.
  apply (find_clk_edge_ignored options
           (mkSample samplenum matched clk data en) s).
  - unfold accepted, disabled. cbn. rewrite Hd.
    destruct matched; [contradiction|reflexivity].
  - unfold qualifying. cbn.
    destruct (Z.eqb_spec (cpol options) clk); [congruence|].
    apply andb_false_r.
Qed.

(** The bootstrap sample emits nothing: after the first [wait] come the
    events of the loop, entered in the state the bootstrap sample leaves. *)
Lemma bootstrap_events wait_cond pending s :
  events_of
    ((x <- wait (WDict []) pending ;;
      find_clk_edge options (s_samplenum x) (s_matched x) (s_clk x)
        (s_data x) (s_en x) true ;;
      decode_loop options wait_cond (tl pending)) s)
  = Wait (WDict [])
    :: match pending with
       | [] => []
       | x :: rest =>
           events_of
             (decode_loop options wait_cond rest
                (if truthy (have_en s) && negb (en_asserted options (s_en x))
                 then frame_cleared s else s))
       end.
Proof.
  destruct pending as [|x rest]; [reflexivity|].
  unfold wait. cbn [tl]. exec.
  destruct (truthy (have_en s) && negb (en_asserted options (s_en x))) eqn:Hd.
  - rewrite find_clk_edge_disabled by exact Hd.
    destruct (decode_loop options wait_cond rest (frame_cleared s))
      as [[r s2] o2].
    reflexivity.
  - rewrite find_clk_edge_first by exact Hd.
    destruct (decode_loop options wait_cond rest s) as [[r s2] o2].
    reflexivity.
Qed.

(** Every round of the loop starts with its [wait]. *)
Lemma decode_loop_first wait_cond pending s :
  exists rest,
    events_of (decode_loop options wait_cond pending s)
    = Wait (WList wait_cond) :: rest.
Proof.
  destruct pending as [|x rest]; cbn [decode_loop].
  - eexists. reflexivity.
  - apply wait_first.
Qed.

(** C7: [decode] raises [ChannelError] exactly when neither channel 0 (CLK)
    nor channel 1 (DATA) is wired, and then before any [wait] (nothing has
    been emitted, the state is untouched); otherwise the first [wait] is
    reached with at most the synthetic record before it, and the wait loop
    begins: the bootstrap sample emits nothing, and the call that follows
    [wait({})] is the loop's [wait(wait_cond)], with [{0: 'e'}] and, when
    ENABLE is wired, [{3: 'e'}].  Only a recording with no sample at all
    ends at the bootstrap [wait], with [EOFError]. *)
Theorem channel_error_iff pending s :
  let r := decode options has_channel pending s in
  ((exists msg, outcome r = inl (ChannelError msg)) <->
   (has_channel 0 = false /\ has_channel 1 = false)) /\
  (if negb (has_channel 0) && negb (has_channel 1) then
     r = (inl (ChannelError "Both clock and data pins required."), s, [])
   else
     exists pre rest,
       events_of r = pre ++ Wait (WDict []) :: rest /\
       Forall (fun ev => is_wait ev = false) pre /\
       match pending with
       | [] => rest = [] /\ outcome r = inl EOFError
       | _ :: _ =>
           exists rest',
             rest
             = Wait (WList (if has_channel 2
                            then [[(0, "e")]; [(3, "e")]]
                            else [[(0, "e")]]))
               :: rest'
       end).
Proof.
  cbv zeta.
  destruct (negb (has_channel 0) && negb (has_channel 1)) eqn:H.
  - assert (E : decode options has_channel pending s
              = (inl (ChannelError "Both clock and data pins required."),
                 s, [])).
    { unfold decode. rewrite H. reflexivity. }
    rewrite E. split; [|reflexivity].
    apply andb_prop in H as [H0 H1].
    apply negb_true_iff in H0, H1.
    split; [intros _; split; assumption|intros _].
    eexists. reflexivity.
  - rewrite (decode_wired options has_channel pending s H). cbv zeta.
    set (he := if has_channel 2 then PyInt 1 else PyBool false).
    set (wc := if has_channel 2 then [[(0, "e")]; [(3, "e")]] else _).
    unfold outcome at 1, events_of at 1. cbn [fst snd].
    split.
    + split.
      * intros [msg E].
        destruct (sat_samples options wc pending (set_have_en he s)) as [Hs _].
        apply Hs in E. exfalso.
        eapply loop_error_not_channel; [exact E|reflexivity].
      * intros [H0 H1]. rewrite H0, H1 in H. discriminate.
    + rewrite bootstrap_events.
      eexists. eexists. split; [reflexivity|].
      split; [destruct (has_channel 2); repeat constructor|].
      destruct pending as [|x rest].
      * split; reflexivity.
      * apply decode_loop_first.
Qed.

(** C9: without an ENABLE channel (and with CLK or DATA wired, so that
    decoding starts) the synthetic CS-CHANGE record is the first thing
    [decode] does, before the first [wait], and nothing else ever goes to the
    Python output. *)
Theorem single_cs_change_without_enable pending s :
  has_channel 2 = false ->
  has_channel 0 = true \/ has_channel 1 = true ->
  exists rest,
    events_of (decode options has_channel pending s)
    = Put 0 0 out_python (Packet "CS-CHANGE" PyNone PyNone)
      :: Wait (WDict []) :: rest /\
    Forall (fun ev => is_python ev = false) rest.
Proof.
  intros H2 Hw.
  assert (H : negb (has_channel 0) && negb (has_channel 1) = false).
  { destruct Hw as [-> | ->]; [reflexivity|apply andb_false_r]. }
  rewrite (decode_wired options has_channel pending s H). cbv zeta. rewrite H2.
  unfold events_of at 1. cbn [snd app].
  destruct (wait_first (WDict []) pending
              (fun x =>
                 find_clk_edge options (s_samplenum x) (s_matched x)
                   (s_clk x) (s_data x) (s_en x) true ;;
                 decode_loop options [[(0, "e")]] (tl pending))
              (set_have_en (PyBool false) s)) as [rest E].
  pose proof (proj2 (sat_samples options [[(0, "e")]] pending
                       (set_have_en (PyBool false) s))) as Hall.
  rewrite E in *. exists rest. split; [reflexivity|].
  inversion Hall as [|? ? _ Hrest]; subst.
  eapply Forall_impl; [exact loop_event_not_python|exact Hrest].
Qed.

(** C10: every operation keeps [0 <= bitcount <= 8],
    [bitcount = len(rxbits)] and [rxdata < 2 ^ bitcount]: [reset]
    establishes it; [shift_bit] keeps it wherever [handle_bit] calls it (after
    the flush, so below 8 bits); [handle_bit], [find_clk_edge] and a whole
    [decode] keep it.  When the flush runs, [rxbits] has exactly 8 entries,
    so [rxbits[0][1]] is in bounds and no [IndexError] is raised. *)
Theorem register_invariant s samplenum matched clk data en first :
  reg_inv s ->
  data = 0 \/ data = 1 ->
  reg_inv reset /\
  (bitcount s < 8 -> reg_inv (state_of (shift_bit samplenum data s))) /\
  reg_inv (state_of (handle_bit samplenum clk data en s)) /\
  outcome (handle_bit samplenum clk data en s) <> inl IndexError /\
  reg_inv (state_of
             (find_clk_edge options samplenum matched clk data en first s)) /\
  (forall pending,
     Forall is_bit pending ->
     reg_inv (state_of (decode options has_channel pending s))) /\
  (bitcount s = 8 ->
   List.length (rxbits s) = 8%nat /\
   exists b ss rest,
     rxbits s = (b, ss) :: rest /\
     handle_bit_display_data samplenum s
     = (inr tt, set_rxbits [] (set_bitcount 0 (set_rxdata 0 s)),
        [Put ss samplenum out_ann (Annotation ann_data [fmt_02X (rxdata s)])])).
Proof.
  intros Hr Hd.
  split; [unfold reg_inv, reset; cbn; lia|].
  split.
  { intros H8. destruct Hr as (Hb & Hl & Hx).
    rewrite shift_bit_eq by lia. unfold state_of. cbn [fst snd].
    pose proof (lor_shift_bound (rxdata s) (bitcount s) data
                  ltac:(lia) Hx Hd) as Hlor.
    unfold shifted, reg_inv. destruct (flag_found s); fields.
    - rewrite length_app. cbn [List.length]. repeat split; lia.
    - repeat split; lia. }
  destruct (handle_bit_reg_inv samplenum clk data en s Hr Hd) as [H1 H2].
  split; [exact H1|]. split; [exact H2|].
  split; [apply find_clk_edge_reg_inv; assumption|].
  split; [intros pending Hb; apply decode_reg_inv; assumption|].
  intros H8. destruct Hr as (Hb & Hl & Hx).
  split; [rewrite H8 in Hl; lia|].
  destruct (rxbits s) as [|[b ss] rest] eqn:Er;
    [rewrite H8 in Hl; discriminate|].
  exists b, ss, rest. split; [reflexivity|].
  rewrite display_data_eq by (rewrite Er; discriminate).
  unfold flushed, data_events. rewrite Er.
  destruct (Z.eqb_spec (bitcount s) 8); [reflexivity|contradiction].
Qed.

End Claims.

(** ** The loop of [decode] and [feed] *)

Lemma out_ann_not_wait evs :
  Forall to_out_ann evs -> filter (fun ev => negb (is_wait ev)) evs = evs.
Proof.
  induction 1 as [|ev evs (ss & es & d & ->) _ IH]; [reflexivity|].
  cbn. rewrite IH. reflexivity.
Qed.

(** [decode_loop] and [feed] go through the same states and emit the same
    annotations; the loop adds its [wait] calls and ends the recording. *)
Lemma decode_loop_feed options wait_cond xs : forall s,
  state_of (decode_loop options wait_cond xs s) = state_of (feed options xs s) /\
  filter (fun ev => negb (is_wait ev))
    (events_of (decode_loop options wait_cond xs s))
  = events_of (feed options xs s).
Proof.
  induction xs as [|x xs IH]; intros s; [split; reflexivity|].
  cbn [decode_loop feed]. unfold wait, deliver. exec.
  pose proof (proj2 (sat_find_clk_edge options (s_samplenum x) (s_matched x)
                       (s_clk x) (s_data x) (s_en x) false s)) as Hev.
  unfold events_of in Hev.
  destruct (find_clk_edge _ _ _ _ _ _ _ s) as [[[e|[]] s1] o1];
    cbn [fst snd] in *.
  - split; [reflexivity|]. cbn [filter is_wait negb app].
    apply out_ann_not_wait, Hev.
  - destruct (IH s1) as [I1 I2]. unfold state_of, events_of in I1, I2.
    destruct (decode_loop options wait_cond xs s1) as [[r s2] o2].
    destruct (feed options xs s1) as [[r' s2'] o2'].
    cbn [fst snd] in *. split; [exact I1|].
    cbn [filter is_wait negb app].
    rewrite filter_app, I2, (out_ann_not_wait _ Hev). reflexivity.
Qed.

(** * Concrete instances *)

Ltac holds := vm_compute; intuition (discriminate || congruence).

Lemma wf_reset : wf reset.
Proof. unfold wf, reg_inv. cbn. repeat split; lia. Qed.

Lemma wf_ex_flagged : wf ex_flagged.
Proof. unfold wf, reg_inv. repeat split; holds. Defined.

Lemma wf_ex_full : wf ex_full.
Proof. unfold wf, reg_inv. repeat split; holds. Defined.

Lemma wf_ex_framed : wf ex_framed.
Proof. unfold wf, reg_inv. repeat split; holds. Defined.

(** Discharges the hypotheses of [H] at a concrete input by evaluation. *)
Ltac discharge H :=
  repeat match type of H with
         | ?A -> _ =>
             let t := fresh in
             assert (t : A)
               by first
                    [ solve [reflexivity]
                    | solve [repeat first [lia | constructor]]
                    | solve [cbn; repeat first [lia | constructor]] ];
             specialize (H t); clear t
         end;
  cbv zeta in H.

Lemma flag_after_six_ones_witness :
  flag_found (state_of (feed ex_options (ex_run6 ++ [ex_zero6]) reset)) = true /\
  In (Put (-1) 80 out_ann (Annotation ann_data_type ["FLAG"]))
    (events_of
       (deliver ex_options ex_next6 false
          (state_of
             (feed ex_options ex_gap6
                (state_of (feed ex_options (ex_run6 ++ [ex_zero6]) reset)))))).
Proof.
  pose proof (flag_after_six_ones ex_options reset ex_run6 ex_zero6 ex_gap6
                ex_next6 wf_reset) as H.
  discharge H.
  destruct H as (_ & F & _ & _ & _ & _ & _ & I).
  split; [exact F|exact I].
Defined.

Lemma abort_after_long_run_witness :
  flag_found (state_of (feed ex_options (ex_run7 ++ [ex_zero7]) ex_flagged))
  = false /\
  In (Put 80 170 out_ann (Annotation ann_data_type ["ABORT"]))
    (events_of
       (deliver ex_options ex_next7 false
          (state_of
             (feed ex_options ex_gap7
                (state_of
                   (feed ex_options (ex_run7 ++ [ex_zero7]) ex_flagged)))))).
Proof.
  pose proof (abort_after_long_run ex_options ex_flagged ex_run7 ex_zero7
                ex_gap7 ex_next7 wf_ex_flagged) as H.
  discharge H.
  destruct H as (_ & F & _ & _ & ss & es & I & -> & -> & _).
  split; [exact F|exact I].
Defined.

(** The claim of C2 says [bitcount] does not change on a stuffed 0.  After a
    flag and the bits 0 0 0 1 1 1 1 1 the register is full and the run is
    five long: the stuffed 0 that follows comes on the edge that shows the
    byte, and [bitcount] goes from 8 to 0. *)
Lemma stuffed_zero_on_full_register :
  one_count ex_full = 5 /\
  qualifying ex_options (have_en ex_full) ex_stuffed = true /\
  s_data ex_stuffed = 0 /\
  bitcount ex_full = 8 /\
  bitcount (state_of (deliver ex_options ex_stuffed false ex_full)) = 0 /\
  rxbits (state_of (deliver ex_options ex_stuffed false ex_full)) = [] /\
  bitcount (state_of (deliver ex_options ex_stuffed false ex_full))
  <> bitcount ex_full.
Proof. vm_compute. repeat split; discriminate. Qed.

Lemma stuffed_zero_not_shifted_witness :
  rxdata (state_of (deliver ex_options ex_stuffed false ex_full)) = 0 /\
  bitcount (state_of (deliver ex_options ex_stuffed false ex_full)) = 0 /\
  rxbits (state_of (deliver ex_options ex_stuffed false ex_full)) = [].
Proof.
  pose proof (stuffed_zero_not_shifted ex_options ex_full ex_stuffed
                wf_ex_full) as H.
  discharge H.
  destruct H as (_ & _ & _ & H & _).
  exact (H eq_refl eq_refl).
Defined.


(** The claim of C5 says the frame reset clears [flag_found].  After ENABLE
    rose and a flag and three bits came in, ENABLE falls: the register is
    cleared, [flag_found] is still set, and [ss_flag] and [prev_bit] keep
    their values as well. *)
Lemma flag_found_survives_deassert :
  truthy (have_en ex_framed) = true /\
  en_asserted ex_options 0 = false /\
  flag_found ex_framed = true /\
  flag_found
    (state_of
       (find_clk_edge ex_options 125 [false; true] 0 0 0 false ex_framed))
  = true /\
  flag_found reset = false /\
  ss_flag
    (state_of
       (find_clk_edge ex_options 125 [false; true] 0 0 0 false ex_framed))
  = 10 /\
  ss_flag reset = -1.
Proof. vm_compute. repeat split. Qed.

Lemma frame_reset_on_deassert_witness :
  find_clk_edge ex_options 125 [false; true] 0 0 0 false ex_framed
  = (inr tt,
     mkDecoder None 0 0 [] [] (Some 1) (-1) 100 true 10 (PyInt 1) 0 1, []).
Proof.
  rewrite (frame_reset_on_deassert ex_options ex_framed 125 [false; true]
             0 0 0 false eq_refl eq_refl).
  reflexivity.
Defined.

(** The claim of C6 says a sample at the other clock level never changes the
    state.  With ENABLE wired, a sample on which the clock goes to level 0
    ([cpol] is 1) while ENABLE is deasserted runs the frame reset: three
    shifted bits are dropped. *)
Lemma other_clock_level_resets_frame :
  cpol ex_options = 1 /\
  bitcount ex_framed = 3 /\
  bitcount
    (state_of
       (find_clk_edge ex_options 125 [true; true] 0 0 0 false ex_framed)) = 0 /\
  state_of (find_clk_edge ex_options 125 [true; true] 0 0 0 false ex_framed)
  <> ex_framed.
Proof. vm_compute. repeat split. discriminate. Qed.

Lemma other_clock_level_ignored_witness :
  find_clk_edge ex_options 115 [true; false] 0 1 1 false ex_framed
  = (inr tt, ex_framed, []).
Proof.
  apply (other_clock_level_ignored ex_options ex_framed 115 [true; false]
           0 1 1); [reflexivity|discriminate|discriminate].
Defined.

(** C8 on a recording with ENABLE wired: ENABLE rises, a flag and the byte
    6B come in, ENABLE falls and rises again.  The byte is annotated, and
    nothing at all is sent to the Python output: no CS-CHANGE for any of
    the three transitions, no TRANSFER at the end of the block. *)
Theorem enable_transitions_emit_no_records :
  wired_all 2 = true /\
  In (Put 90 170 out_ann (Annotation ann_data ["6B"]))
    (events_of (decode ex_options wired_all ex_transitions reset)) /\
  filter is_python
    (events_of (decode ex_options wired_all ex_transitions reset)) = [].
Proof. vm_compute. repeat split. tauto. Qed.

Lemma single_cs_change_without_enable_witness :
  exists rest,
    events_of (decode ex_options wired_no_enable ex_flag_stream reset)
    = Put 0 0 out_python (Packet "CS-CHANGE" PyNone PyNone)
      :: Wait (WDict []) :: rest /\
    Forall (fun ev => is_python ev = false) rest.
Proof.
  apply (single_cs_change_without_enable ex_options wired_no_enable
           ex_flag_stream reset); [reflexivity|left; reflexivity].
Defined.

Lemma register_invariant_witness :
  reg_inv (state_of (handle_bit 170 1 0 255 ex_full)) /\
  List.length (rxbits ex_full) = 8%nat.
Proof.
  pose proof (register_invariant ex_options wired_no_enable ex_full 170
                [true] 1 0 255 false (proj1 wf_ex_full)
                (or_introl eq_refl)) as H.
  destruct H as (_ & _ & H1 & _ & _ & _ & H8).
  split; [exact H1|exact (proj1 (H8 eq_refl))].
Defined.

(** * Further properties *)

(** ** [crc16] *)

Lemma lxor_below x y n :
  0 < n -> 0 <= x < 2 ^ n -> 0 <= y < 2 ^ n -> 0 <= Z.lxor x y < 2 ^ n.
Proof.
  intros Hn Hx Hy.
  assert (H0 : 0 <= Z.lxor x y) by (apply Z.lxor_nonneg; lia).
  split; [exact H0|].
  destruct (Z.eq_dec (Z.lxor x y) 0) as [E|E].
  - rewrite E. apply Z.pow_pos_nonneg; lia.
  - apply Z.log2_lt_pow2; [lia|].
    pose proof (Z.log2_lxor x y ltac:(lia) ltac:(lia)) as Hl.
    assert (Z.log2 x < n).
    { destruct (Z.eq_dec x 0) as [->|]; [cbn; lia|].
      apply Z.log2_lt_pow2; lia. }
    assert (Z.log2 y < n).
    { destruct (Z.eq_dec y 0) as [->|]; [cbn; lia|].
      apply Z.log2_lt_pow2; lia. }
    lia.
Qed.

Lemma crc16_bit_reg16 crc : reg16 crc -> reg16 (crc16_bit crc).
Proof.
  unfold reg16, crc16_bit. intros H.
  assert (Hs : 0 <= Z.shiftr crc 1 < 2 ^ 16).
  { rewrite Z.shiftr_div_pow2 by lia. change (2 ^ 1) with 2.
    change (2 ^ 16) with 65536 in *. Z.div_mod_to_equations. lia. }
  destruct (Z.land crc 1 >? 0); [|exact Hs].
  apply lxor_below; [lia|exact Hs|]. change (2 ^ 16) with 65536. lia.
Qed.

Lemma crc16_byte_reg16 crc b : reg16 crc -> is_byte b -> reg16 (crc16_byte crc b).
Proof.
  intros Hc Hb. unfold crc16_byte. rewrite Z.shiftl_0_r.
  assert (H : reg16 (Z.lxor crc b)).
  { unfold reg16, is_byte in *. apply lxor_below; [lia|exact Hc|].
    change (2 ^ 16) with 65536. lia. }
  cbn [Nat.iter]. repeat apply crc16_bit_reg16. exact H.
Qed.

Lemma fold_crc16_reg16 l : forall crc,
  reg16 crc -> Forall is_byte l -> reg16 (fold_left crc16_byte l crc).
Proof.
  induction l as [|b l IH]; intros crc Hc Hl; [exact Hc|].
  inversion Hl; subst. cbn. apply IH; [apply crc16_byte_reg16|]; assumption.
Qed.

Lemma skipn_at {A : Type} (l : list A) : forall i b,
  nth_error l i = Some b -> skipn i l = b :: skipn (S i) l.
Proof.
  induction l as [|a l IH]; intros [|i] b H; try discriminate.
  - injection H as ->. reflexivity.
  - cbn. apply IH. exact H.
Qed.

(** The loop in closed form: a fold over the [n] elements from index [i],
    or [IndexError] when there are fewer. *)
Lemma crc16_loop_eq l n : forall i crc,
  (i <= List.length l)%nat ->
  crc16_loop l i n crc
  = if (i + n <=? List.length l)%nat
    then inr (fold_left crc16_byte (firstn n (skipn i l)) crc)
    else inl IndexError.
Proof.
  induction n as [|n IH]; intros i crc Hi.
  - cbn [crc16_loop firstn fold_left].
    destruct (Nat.leb_spec (i + 0) (List.length l)); [reflexivity|lia].
  - cbn [crc16_loop].
    destruct (nth_error l i) as [b|] eqn:E.
    + assert (Hlt : (i < List.length l)%nat)
        by (apply nth_error_Some; congruence).
      rewrite IH by lia.
      replace (S i + n)%nat with (i + S n)%nat by lia.
      destruct (Nat.leb_spec (i + S n) (List.length l)); [|reflexivity].
      f_equal.
      rewrite (skipn_at l i b E). reflexivity.
    + apply nth_error_None in E.
      destruct (Nat.leb_spec (i + S n) (List.length l)); [lia|reflexivity].
Qed.

Lemma crc16_some l length :
  crc16 (Some l) length
  = if (Z.to_nat length <=? List.length l)%nat
    then inr (Z.lxor
                (Z.land (fold_left crc16_byte (firstn (Z.to_nat length) l)
                           0xFFFF) 0xFFFF) 0xFFFF)
    else inl IndexError.
Proof.
  unfold crc16. cbv zeta. rewrite crc16_loop_eq by lia.
  cbn [Nat.add skipn].
  destruct (Z.to_nat length <=? List.length l)%nat; reflexivity.
Qed.

Lemma land16_range x : 0 <= Z.land x 0xFFFF < 2 ^ 16.
Proof.
  change 0xFFFF with (Z.ones 16). rewrite Z.land_ones by lia.
  apply Z.mod_pos_bound. reflexivity.
Qed.

(** X1: [crc16] returns a value exactly when [data] is a sequence with at
    least [length] elements; it raises [TypeError] when [data] is [None]
    (the guard's [return 0] is never reached) and [IndexError] when
    [length] exceeds [len(data)].  Its results are 16-bit values, whatever
    integers [data] holds, and 0 when [length] is zero or negative. *)
Theorem crc16_outcome data length :
  (forall c, crc16 data length = inr c -> 0 <= c <= 0xFFFF) /\
  (crc16 data length = inl TypeError <-> data = None) /\
  (crc16 data length = inl IndexError <->
   exists l, data = Some l /\ Z.of_nat (List.length l) < length) /\
  ((exists c, crc16 data length = inr c) <->
   exists l, data = Some l /\ length <= Z.of_nat (List.length l)) /\
  (data <> None -> length <= 0 -> crc16 data length = inr 0).
Proof.
  destruct data as [l|].
  - rewrite crc16_some.
    destruct (Nat.leb_spec (Z.to_nat length) (List.length l)) as [H|H].
    + split.
      { intros c E. injection E as <-.
        pose proof (land16_range (fold_left crc16_byte
                                    (firstn (Z.to_nat length) l) 65535)) as Hm.
        pose proof (lxor_below _ 65535 16 ltac:(lia) Hm
                      ltac:(change (2 ^ 16) with 65536; lia)) as Hx.
        change (2 ^ 16) with 65536 in Hx. lia. }
      split; [split; discriminate|].
      split.
      { split; [discriminate|]. intros (l' & E & Hl). injection E as <-. lia. }
      split.
      { split; [intros _; exists l; split; [reflexivity|lia]|].
        intros _. eexists. reflexivity. }
      intros _ Hn. replace (Z.to_nat length) with 0%nat by lia. reflexivity.
    + split; [discriminate|]. split; [split; discriminate|].
      split.
      { split; [intros _; exists l; split; [reflexivity|lia]|reflexivity]. }
      split.
      { split; [intros [c E]; discriminate|].
        intros (l' & E & Hl). injection E as <-. lia. }
      intros _ Hn. lia.
  - cbn. split; [discriminate|]. split; [split; reflexivity|].
    split; [split; [discriminate|intros (l & E & _); discriminate]|].
    split; [split; [intros [c E]; discriminate
                   |intros (l & E & _); discriminate]|].
    intros H. contradiction.
Qed.

(** X2: [crc16] reads only the first [length] elements of [data]: what
    follows them does not change the result. *)
Theorem crc16_prefix l more length :
  length <= Z.of_nat (List.length l) ->
  crc16 (Some (l ++ more)) length = crc16 (Some l) length /\
  crc16 (Some l) length
  = crc16 (Some (firstn (Z.to_nat length) l)) length.
Proof.
  intros H. rewrite !crc16_some.
  rewrite length_app, length_firstn.
  destruct (Nat.leb_spec (Z.to_nat length) (List.length l)) as [H1|H1]; [|lia].
  destruct (Nat.leb_spec (Z.to_nat length) (List.length l + List.length more))
    as [H2|H2]; [|lia].
  destruct (Nat.leb_spec (Z.to_nat length)
              (Init.Nat.min (Z.to_nat length) (List.length l)))
    as [H3|H3]; [|lia].
  rewrite firstn_app.
  replace (Z.to_nat length - List.length l)%nat with 0%nat by lia.
  cbn [firstn]. rewrite app_nil_r, firstn_firstn, Nat.min_id.
  split; reflexivity.
Qed.

Lemma forall_bits_spec P k : forall acc,
  forall_bits k acc P = true ->
  forall z, acc * 2 ^ Z.of_nat k <= z < (acc + 1) * 2 ^ Z.of_nat k ->
  P z = true.
Proof.
  induction k as [|k IH]; intros acc H z Hz.
  - cbn in *. replace z with acc by lia. exact H.
  - cbn [forall_bits] in H. apply andb_prop in H as [H0 H1].
    rewrite Nat2Z.inj_succ, Z.pow_succ_r in Hz by lia.
    assert (Hp : 0 < 2 ^ Z.of_nat k) by (apply Z.pow_pos_nonneg; lia).
    destruct (Z.lt_ge_cases z ((2 * acc + 1) * 2 ^ Z.of_nat k)).
    + apply (IH _ H0). nia.
    + apply (IH _ H1). nia.
Qed.

Lemma forall_reg16 (f : Z -> Z) (v : Z) :
  forall_bits 16 0 (fun r => f r =? v) = true ->
  forall r, reg16 r -> f r = v.
Proof.
  intros H r Hr. apply Z.eqb_eq.
  apply (forall_bits_spec (fun r => f r =? v) 16 0 H).
  unfold reg16 in Hr. cbn. lia.
Qed.

(** Running any 16-bit register over its own check sequence, low byte
    first, gives the residue 0x0F47: checked on all 65536 values. *)
Lemma residue_step r :
  reg16 r ->
  Z.lxor
    (Z.land
       (crc16_byte
          (crc16_byte r (Z.lxor (Z.land r 0xFFFF) 0xFFFF mod 256))
          (Z.lxor (Z.land r 0xFFFF) 0xFFFF / 256))
       0xFFFF)
    0xFFFF
  = 0x0F47.
Proof.
  revert r.
  apply (forall_reg16
           (fun r =>
              Z.lxor
                (Z.land
                   (crc16_byte
                      (crc16_byte r (Z.lxor (Z.land r 0xFFFF) 0xFFFF mod 256))
                      (Z.lxor (Z.land r 0xFFFF) 0xFFFF / 256))
                   0xFFFF)
                0xFFFF)
           0x0F47).
  vm_compute. reflexivity.
Qed.

(** X3: the check a receiver makes.  For a byte string, the CRC of the
    string followed by its own CRC, low byte first, is always 0x0F47. *)
Theorem crc16_residue l c :
  Forall is_byte l ->
  crc16 (Some l) (Z.of_nat (List.length l)) = inr c ->
  crc16 (Some (l ++ [c mod 256; c / 256])) (Z.of_nat (List.length l) + 2)
  = inr 0x0F47.
Proof.
  intros Hl Hc. rewrite crc16_some in Hc.
  rewrite Nat2Z.id, Nat.leb_refl, firstn_all in Hc.
  injection Hc as Hc. subst c. rewrite crc16_some.
  set (c := Z.lxor (Z.land (fold_left crc16_byte l 0xFFFF) 0xFFFF) 0xFFFF).
  replace (Z.to_nat (Z.of_nat (List.length l) + 2))
    with (List.length (l ++ [c mod 256; c / 256]))
    by (rewrite length_app; cbn [List.length]; lia).
  rewrite Nat.leb_refl, firstn_all, fold_left_app. cbn [fold_left].
  subst c. f_equal. apply residue_step.
  apply fold_crc16_reg16; [|exact Hl]. unfold reg16. cbn. lia.
Qed.

(** ** One sample, for any pin values *)

Lemma safe_of_wf s : wf s -> safe s.
Proof. intros [(Hb & Hl & _) Hp]. repeat split; assumption || lia. Qed.

Lemma handle_bit_safe samplenum clk data en s :
  safe s ->
  handle_bit samplenum clk data en s
  = (inr tt, stepped samplenum data s, step_events samplenum s).
Proof.
  intros (Hb & Hl & Hp). unfold handle_bit, stepped, step_events.
  assert (Hne : bitcount s = 8 -> rxbits s <> []).
  { intros H8 E. rewrite E, H8 in Hl. discriminate Hl. }
  assert (Hf : 0 <= bitcount (flushed (shown samplenum data s))).
  { unfold flushed, shown. cbn. destruct (bitcount s =? 8); cbn; lia. }
  erewrite bind_inr; [|apply display_bit_eq; exact Hp|].
  2:{ erewrite bind_inr; [|apply flag_eq|].
      2:{ erewrite bind_inr; [|apply display_data_eq|apply count_ones_eq, Hf].
          - reflexivity.
          - exact Hne. }
      reflexivity. }
  rewrite app_nil_r. reflexivity.
Qed.

Lemma stepped_safe samplenum data s : safe s -> safe (stepped samplenum data s).
Proof.
  intros (Hb & Hl & Hp). unfold safe.
  open_step; try rewrite length_app; cbn [List.length];
    repeat split; try discriminate; try lia.
Qed.

Lemma frame_cleared_safe s : safe (frame_cleared s).
Proof. apply safe_of_wf, frame_cleared_wf. Qed.

Lemma deliver_path options x first s :
  safe s -> path options x first s (deliver options x first s).
Proof.
  intros Hs.
  destruct (disabled options (have_en s) x) eqn:Hd.
  - unfold deliver. rewrite find_clk_edge_disabled by exact Hd.
    apply path_reset, Hd.
  - destruct first.
    + unfold deliver. rewrite find_clk_edge_first by exact Hd.
      apply path_skip; [exact Hd|left; reflexivity].
    + destruct (s_matched x) as [|m ms] eqn:Hm.
      * replace (deliver options x false s) with (inl IndexError : exn + unit, s, @nil event).
        { apply path_index; [exact Hd|reflexivity|exact Hm]. }
        unfold deliver, find_clk_edge, disabled in *. exec.
        rewrite Hd, Hm. reflexivity.
      * destruct (qualifying options (have_en s) x) eqn:Hq.
        { rewrite (find_clk_edge_qualifying options x s Hq).
          rewrite handle_bit_safe by exact Hs.
          apply path_edge; [reflexivity|exact Hq]. }
        { rewrite (find_clk_edge_ignored options x s); [|
            unfold accepted; rewrite Hd, Hm; reflexivity|exact Hq].
          apply path_skip; [exact Hd|right; exact Hq]. }
Qed.

Lemma path_safe options x first s r :
  safe s -> path options x first s r -> safe (state_of r).
Proof.
  intros Hs H. destruct H; cbn.
  - apply frame_cleared_safe.
  - exact Hs.
  - exact Hs.
  - apply stepped_safe, Hs.
Qed.

Lemma path_have_en options x first s r :
  path options x first s r -> have_en (state_of r) = have_en s.
Proof.
  intros H. destruct H; cbn; try reflexivity. apply stepped_have_en.
Qed.

(** ** The loop of [decode], by invariant *)

Section LoopInvariant.

Variable options : Options.
Variable I : list Sample -> Decoder -> Prop.
Variable Q : event -> Prop.

Hypothesis I_skip : forall x rest s, I (x :: rest) s -> I rest s.
Hypothesis I_reset : forall x rest s, I (x :: rest) s -> I rest (frame_cleared s).
Hypothesis I_edge : forall x rest s,
  I (x :: rest) s -> safe s ->
  I rest (stepped (s_samplenum x) (s_data x) s) /\
  Forall Q (step_events (s_samplenum x) s).

Lemma decode_loop_events wait_cond pending : forall s,
  safe s -> I pending s ->
  Forall (fun ev => is_wait ev = true \/ Q ev)
    (events_of (decode_loop options wait_cond pending s)).
Proof.
  induction pending as [|x rest IH]; intros s Hs Hi.
  - cbn. repeat constructor.
  - cbn [decode_loop]. unfold wait. exec. fold (deliver options x false).
    pose proof (deliver_path options x false s Hs) as Hp.
    destruct Hp as [Hd|Hd Hq|Hd Hf Hm|Hf Hq]; cbn [fst snd app].
    + specialize (IH _ (frame_cleared_safe s) (I_reset _ _ _ Hi)).
      unfold events_of in IH.
      destruct (decode_loop options wait_cond rest (frame_cleared s))
        as [[r s2] o2].
      constructor; [left; reflexivity|exact IH].
    + specialize (IH _ Hs (I_skip _ _ _ Hi)). unfold events_of in IH.
      destruct (decode_loop options wait_cond rest s) as [[r s2] o2].
      constructor; [left; reflexivity|exact IH].
    + repeat constructor.
    + destruct (I_edge _ _ _ Hi Hs) as [Hi' Hq'].
      specialize (IH _ (stepped_safe _ _ _ Hs) Hi'). unfold events_of in IH.
      destruct (decode_loop options wait_cond rest
                  (stepped (s_samplenum x) (s_data x) s)) as [[r s2] o2].
      cbn [fst snd]. constructor; [left; reflexivity|].
      apply Forall_app. split; [|exact IH].
      eapply Forall_impl; [|exact Hq']. intros ev H. right. exact H.
Qed.

Variable has_channel : Z -> bool.

Hypothesis I_have_en : forall p s he, I p s -> I p (set_have_en he s).
Hypothesis Q_cs_change : Q cs_change.

Lemma decode_events pending s :
  safe s -> I pending s ->
  Forall (fun ev => is_wait ev = true \/ Q ev)
    (events_of (decode options has_channel pending s)).
Proof.
  intros Hs Hi.
  destruct (negb (has_channel 0) && negb (has_channel 1)) eqn:H.
  - unfold decode. rewrite H. constructor.
  - rewrite (decode_wired options has_channel pending s H). cbv zeta.
    unfold events_of at 1. cbn [snd].
    set (he := if has_channel 2 then PyInt 1 else PyBool false).
    set (wc := if has_channel 2 then [[(0, "e")]; [(3, "e")]] else _).
    apply Forall_app. split.
    { destruct (has_channel 2); [constructor|].
      constructor; [right; exact Q_cs_change|constructor]. }
    assert (Hs0 : safe (set_have_en he s)) by exact Hs.
    pose proof (I_have_en _ _ he Hi) as Hi0.
    revert Hs0 Hi0. generalize (set_have_en he s). intros s0 Hs0 Hi0.
    unfold wait. exec.
    destruct pending as [|x rest]; [repeat constructor|].
    cbn [tl]. fold (deliver options x true).
    pose proof (deliver_path options x true s0 Hs0) as Hp.
    destruct Hp as [Hd|Hd Hq|Hd Hf Hm|Hf Hq]; cbn [fst snd app];
      try discriminate.
    + pose proof (decode_loop_events wc rest _ (frame_cleared_safe s0)
                    (I_reset _ _ _ Hi0)) as IH.
      unfold events_of in IH.
      destruct (decode_loop options wc rest (frame_cleared s0)) as [[r s2] o2].
      constructor; [left; reflexivity|exact IH].
    + pose proof (decode_loop_events wc rest _ Hs0 (I_skip _ _ _ Hi0)) as IH.
      unfold events_of in IH.
      destruct (decode_loop options wc rest s0) as [[r s2] o2].
      constructor; [left; reflexivity|exact IH].
Qed.

End LoopInvariant.

(** ** A whole recording *)

Lemma step_events_no_wait samplenum s :
  filter is_wait (step_events samplenum s) = [].
Proof.
  unfold step_events, bit_events, flag_events, data_events.
  rewrite !filter_app.
  destruct (negb (ss_prev_clock s =? -1)); [destruct (prev_bit s)|];
    (destruct (prev_one_count s =? 6);
       [|destruct (prev_one_count s >? 6)]);
    (destruct (bitcount s =? 8);
       [destruct (rxbits s) as [|[b n] l]|]); reflexivity.
Qed.

Lemma decode_loop_ends options wait_cond pending : forall s,
  safe s ->
  Forall (fun x => s_matched x <> []) pending ->
  outcome (decode_loop options wait_cond pending s) = inl EOFError /\
  filter is_wait (events_of (decode_loop options wait_cond pending s))
  = repeat (Wait (WList wait_cond)) (S (List.length pending)).
Proof.
  induction pending as [|x rest IH]; intros s Hs Hm.
  - split; reflexivity.
  - inversion Hm as [|? ? Hx Hrest]; subst.
    cbn [decode_loop]. unfold wait. exec. fold (deliver options x false).
    pose proof (deliver_path options x false s Hs) as Hp.
    destruct Hp as [Hd|Hd Hq|Hd Hf Hm0|Hf Hq]; cbn [fst snd app];
      try contradiction.
    + destruct (IH _ (frame_cleared_safe s) Hrest) as [I1 I2].
      unfold outcome, events_of in *.
      destruct (decode_loop options wait_cond rest (frame_cleared s))
        as [[r s2] o2].
      cbn [fst snd filter is_wait List.length repeat] in *.
      rewrite I2. split; [exact I1|reflexivity].
    + destruct (IH _ Hs Hrest) as [I1 I2].
      unfold outcome, events_of in *.
      destruct (decode_loop options wait_cond rest s) as [[r s2] o2].
      cbn [fst snd filter is_wait List.length repeat] in *.
      rewrite I2. split; [exact I1|reflexivity].
    + destruct (IH _ (stepped_safe (s_samplenum x) (s_data x) s Hs) Hrest)
        as [I1 I2].
      unfold outcome, events_of in *.
      destruct (decode_loop options wait_cond rest
                  (stepped (s_samplenum x) (s_data x) s)) as [[r s2] o2].
      cbn [fst snd filter is_wait List.length repeat] in *.
      rewrite filter_app, step_events_no_wait, I2.
      split; [exact I1|reflexivity].
Qed.

(** X4: with CLK or DATA wired, a decoder that starts from [reset] raises
    none of its own errors, whatever the pin values, on a recording whose
    samples after the first come with a non-empty [matched]: it stops at the
    end of the recording.  It calls [wait] once with no condition and then
    once per further sample and once more, always with the same conditions:
    an edge on channel 0, and with ENABLE wired an edge on channel 3. *)
Theorem decode_runs_to_end options has_channel pending :
  has_channel 0 = true \/ has_channel 1 = true ->
  Forall (fun x => s_matched x <> []) (tl pending) ->
  let r := decode options has_channel pending reset in
  outcome r = inl EOFError /\
  filter is_wait (events_of r)
  = Wait (WDict [])
    :: repeat (Wait (WList (loop_cond (has_channel 2)))) (List.length pending).
Proof.
  intros Hw Hm. cbv zeta.
  assert (H : negb (has_channel 0) && negb (has_channel 1) = false).
  { destruct Hw as [-> | ->]; [reflexivity|apply andb_false_r]. }
  rewrite (decode_wired options has_channel pending reset H). cbv zeta.
  unfold outcome, events_of. cbn [fst snd].
  change (if has_channel 2 then [[(0, "e")]; [(3, "e")]] else [[(0, "e")]])
    with (loop_cond (has_channel 2)).
  set (he := if has_channel 2 then PyInt 1 else PyBool false).
  set (wc := loop_cond (has_channel 2)).
  assert (Hs0 : safe (set_have_en he reset)).
  { unfold safe. cbn. repeat split; lia. }
  revert Hs0. generalize (set_have_en he reset). intros s0 Hs0.
  rewrite filter_app.
  assert (Hpre : filter is_wait
                   (if has_channel 2 then []
                    else [Put 0 0 out_python
                            (Packet "CS-CHANGE" PyNone PyNone)]) = [])
    by (destruct (has_channel 2); reflexivity).
  rewrite Hpre. cbn [app].
  unfold wait. exec.
  destruct pending as [|x rest]; [split; reflexivity|].
  cbn [tl] in *. fold (deliver options x true).
  pose proof (deliver_path options x true s0 Hs0) as Hp.
  destruct Hp as [Hd|Hd Hq|Hd Hf Hm0|Hf Hq]; cbn [fst snd app];
    try discriminate.
  - destruct (decode_loop_ends options wc rest _ (frame_cleared_safe s0) Hm)
      as [I1 I2].
    unfold outcome, events_of in *.
    destruct (decode_loop options wc rest (frame_cleared s0)) as [[r s2] o2].
    cbn [fst snd filter is_wait List.length repeat] in *.
    rewrite I2. split; [exact I1|reflexivity].
  - destruct (decode_loop_ends options wc rest _ Hs0 Hm) as [I1 I2].
    unfold outcome, events_of in *.
    destruct (decode_loop options wc rest s0) as [[r s2] o2].
    cbn [fst snd filter is_wait List.length repeat] in *.
    rewrite I2. split; [exact I1|reflexivity].
Qed.

(** ** What reaches the host *)

Ltac known_leaf :=
  first
    [ apply sat_raise; exact I
    | apply sat_emit; first
        [ right; right; do 4 eexists; split;
          [ reflexivity
          | first [ left; reflexivity
                  | right; left; reflexivity
                  | right; right; reflexivity ] ]
        | right; left; reflexivity
        | left; reflexivity ] ].

Lemma known_handle_bit samplenum clk data en :
  sat (fun _ => True)
    (fun ev => is_wait ev = true \/ ev = cs_change \/ known_ann ev)
    (handle_bit samplenum clk data en).
Proof.
  unfold handle_bit, handle_bit_display_bit, handle_bit_flag,
    handle_bit_display_data, handle_bit_count_ones, put.
  sat_walk; known_leaf.
Qed.

Lemma known_find_clk_edge options samplenum matched clk data en first :
  sat (fun _ => True)
    (fun ev => is_wait ev = true \/ ev = cs_change \/ known_ann ev)
    (find_clk_edge options samplenum matched clk data en first).
Proof.
  unfold find_clk_edge, frame_reset.
  sat_walk_using ltac:(apply known_handle_bit); known_leaf.
Qed.

Lemma known_wait arg pending :
  sat (fun _ => True)
    (fun ev => is_wait ev = true \/ ev = cs_change \/ known_ann ev)
    (wait arg pending).
Proof. unfold wait. sat_walk; known_leaf. Qed.

Lemma known_decode_loop options wait_cond pending :
  sat (fun _ => True)
    (fun ev => is_wait ev = true \/ ev = cs_change \/ known_ann ev)
    (decode_loop options wait_cond pending).
Proof.
  induction pending as [|x rest IH]; cbn [decode_loop].
  - apply sat_bind; [apply known_wait|intros; apply sat_ret].
  - apply sat_bind; [apply known_wait|intros].
    apply sat_bind; [apply known_find_clk_edge|intros; exact IH].
Qed.

(** X5: whatever the recording and the state it starts in, [decode] calls
    [wait], puts the one synthetic CS-CHANGE record, and puts annotations on
    [out_ann] of class [ann_bit], [ann_data] or [ann_data_type] with a
    single text.  Nothing else reaches the host: nothing on the binary or
    the bitrate output, no 'warning' or 'transfer' annotation, no DATA, BITS
    or TRANSFER record. *)
Theorem decode_emits_known options has_channel pending s :
  Forall (fun ev => is_wait ev = true \/ ev = cs_change \/ known_ann ev)
    (events_of (decode options has_channel pending s)).
Proof.
  assert (H : sat (fun _ => True)
                (fun ev => is_wait ev = true \/ ev = cs_change \/ known_ann ev)
                (decode options has_channel pending)).
  { unfold decode, put.
    sat_walk_using
      ltac:(first [ apply known_decode_loop | apply known_find_clk_edge
                  | apply known_wait ]);
      known_leaf. }
  apply H.
Qed.

Lemma stepped_marks u n data s :
  marks_below u s -> 0 <= u <= n -> marks_below n (stepped n data s).
Proof.
  intros (Hc & Hf & Hg & Hr) Hn.
  assert (Hr' : Forall (fun bn => 0 <= snd bn <= n) (rxbits s)).
  { eapply Forall_impl; [|exact Hr]. cbn. intros bn H. lia. }
  assert (Hlast : Forall (fun bn => 0 <= snd bn <= n) [(data, n)]).
  { constructor; [cbn; lia|constructor]. }
  unfold marks_below.
  open_step; repeat split; try lia;
    first [ exact Hr' | exact Hlast
          | apply Forall_app; split; [exact Hr'|exact Hlast]
          | solve [repeat constructor; cbn [snd]; lia] ].
Qed.

Lemma step_events_spans u n s :
  marks_below u s -> 0 <= u <= n -> Forall span_ok (step_events n s).
Proof.
  intros (Hc & Hf & Hg & Hr) Hn.
  unfold step_events, bit_events, flag_events, data_events.
  apply Forall_app. split; [|apply Forall_app; split].
  - destruct (Z.eqb_spec (ss_prev_clock s) (-1)); cbn [negb]; [constructor|].
    destruct (prev_bit s); [|constructor].
    constructor; [|constructor]. cbn. split; lia.
  - destruct (prev_one_count s =? 6); [|destruct (prev_one_count s >? 6)];
      [constructor; [cbn; lia|constructor]..|constructor].
  - destruct (bitcount s =? 8); [|constructor].
    destruct (rxbits s) as [|[b ss] l]; [constructor|].
    inversion Hr as [|? ? Hh _]; subst. cbn in Hh.
    constructor; [|constructor]. cbn. split; lia.
Qed.

(** X6: on a recording whose sample numbers are not negative and do not
    decrease, every span the decoder puts starts no later than it ends.
    Bit and byte annotations start at a real sample; a FLAG or ABORT may
    start at -1, when its run of 1s began before any 0 bit was seen. *)
Theorem decode_spans_ordered options has_channel pending :
  Forall (fun x => 0 <= s_samplenum x) pending ->
  StronglySorted Z.le (map s_samplenum pending) ->
  Forall span_ok (events_of (decode options has_channel pending reset)).
Proof.
  intros Hpos Hsort.
  eapply Forall_impl;
    [|apply (decode_events options
               (fun p s =>
                  exists u, marks_below u s /\ 0 <= u /\
                            Forall (fun x => u <= s_samplenum x) p /\
                            StronglySorted Z.le (map s_samplenum p))
               span_ok)].
  - intros ev [Hw|Hq]; [|exact Hq]. destruct ev; [discriminate|exact I].
  - intros x rest s (u & Hm & Hu & Hall & Hs).
    inversion Hall; subst. cbn in Hs. apply StronglySorted_inv in Hs as [Hs _].
    exists u. split; [exact Hm|]. split; [exact Hu|]. split; assumption.
  - intros x rest s (u & Hm & Hu & Hall & Hs).
    inversion Hall; subst. cbn in Hs. apply StronglySorted_inv in Hs as [Hs _].
    exists u. split; [|repeat split; assumption].
    destruct Hm as (Hc & Hf & Hg & Hr). unfold marks_below, frame_cleared.
    cbn. repeat split; try lia. constructor.
  - intros x rest s (u & Hm & Hu & Hall & Hs) Hsafe.
    inversion Hall as [|? ? Hx Hrest]; subst. cbn in Hs.
    apply StronglySorted_inv in Hs as [Hs Hle].
    split; [|apply (step_events_spans u); [exact Hm|lia]].
    exists (s_samplenum x). split; [apply (stepped_marks u); [exact Hm|lia]|].
    split; [lia|]. split; [|exact Hs].
    rewrite Forall_map in Hle. exact Hle.
  - intros p s he (u & Hm & Hrest). exists u. split; [exact Hm|exact Hrest].
  - cbn. lia.
  - unfold safe, reset. cbn. repeat split; lia.
  - exists 0. split; [|repeat split; try lia; assumption].
    unfold marks_below, reset. cbn. repeat split; try lia. constructor.
Qed.

Lemma fmt_02X_byte z : 0 <= z < 256 -> fmt_02X z = two_hex z.
Proof.
  intros Hz. apply String.eqb_eq.
  apply (forall_bits_spec two_hex_ok 8 0); [vm_compute; reflexivity|].
  cbn. lia.
Qed.

Lemma step_events_byte_text samplenum s :
  reg_inv s -> Forall byte_text (step_events samplenum s).
Proof.
  intros (Hb & Hl & Hx).
  unfold step_events, bit_events, flag_events, data_events.
  apply Forall_app. split; [|apply Forall_app; split].
  - destruct (negb (ss_prev_clock s =? -1)); [|constructor].
    destruct (prev_bit s); [|constructor].
    constructor; [|constructor]. cbn. discriminate.
  - destruct (prev_one_count s =? 6); [|destruct (prev_one_count s >? 6)];
      try constructor; try constructor; cbn; discriminate.
  - destruct (Z.eqb_spec (bitcount s) 8) as [E|E]; [|constructor].
    destruct (rxbits s) as [|[b ss] l]; [constructor|].
    constructor; [|constructor]. cbn. intros _.
    rewrite E in Hx. change (2 ^ 8) with 256 in Hx.
    exists (rxdata s). split; [exact Hx|].
    rewrite fmt_02X_byte by exact Hx. reflexivity.
Qed.

(** X7: on a recording of data bits, the text of every byte annotation is
    exactly two upper-case hexadecimal digits, high digit first, of a value
    below 256. *)
Theorem decode_byte_text options has_channel pending :
  Forall is_bit pending ->
  Forall byte_text (events_of (decode options has_channel pending reset)).
Proof.
  intros Hbits.
  eapply Forall_impl;
    [|apply (decode_events options
               (fun p s => reg_inv s /\ Forall is_bit p) byte_text)].
  - intros ev [Hw|Hq]; [|exact Hq]. destruct ev; [discriminate|exact I].
  - intros x rest s [Hr Hp]. inversion Hp; subst. split; assumption.
  - intros x rest s [Hr Hp]. inversion Hp; subst.
    split; [apply frame_cleared_wf|assumption].
  - intros x rest s [Hr Hp] _. inversion Hp as [|? ? Hx Hrest]; subst.
    split; [split; [apply stepped_reg_inv|]; assumption|].
    apply step_events_byte_text, Hr.
  - intros p s he H. exact H.
  - exact I.
  - unfold safe, reset. cbn. repeat split; lia.
  - split; [unfold reg_inv, reset; cbn; lia|exact Hbits].
Qed.

(** ** Runs of samples, for any pin values *)

Lemma deliver_edge options s x :
  safe s ->
  qualifying options (have_en s) x = true ->
  deliver options x false s
  = (inr tt, stepped (s_samplenum x) (s_data x) s,
     step_events (s_samplenum x) s).
Proof.
  intros Hs Hq. rewrite (find_clk_edge_qualifying options x s Hq).
  apply handle_bit_safe, Hs.
Qed.

Lemma feed_safe options xs : forall s,
  safe s ->
  Forall (fun x => accepted options (have_en s) x = true) xs ->
  feed options xs s
  = (inr tt, steps (filter (qualifying options (have_en s)) xs) s,
     steps_events (filter (qualifying options (have_en s)) xs) s).
Proof.
  induction xs as [|x xs IH]; intros s Hs Ha; [reflexivity|].
  inversion Ha as [|? ? Hx Hxs]; subst. cbn [feed filter] in *.
  destruct (qualifying options (have_en s) x) eqn:Hq.
  - pose proof (stepped_have_en (s_samplenum x) (s_data x) s) as He.
    erewrite bind_inr.
    + reflexivity.
    + apply deliver_edge; assumption.
    + cbn [steps steps_events]. rewrite <- He. apply IH.
      * apply stepped_safe; assumption.
      * rewrite He. exact Hxs.
  - rewrite bind_silent with (a := tt) (s1 := s).
    + apply IH; assumption.
    + apply (find_clk_edge_ignored options x s); assumption.
Qed.

Lemma steps_safe es : forall s, safe s -> safe (steps es s).
Proof.
  induction es as [|x es IH]; intros s Hs; [exact Hs|].
  cbn. apply IH, stepped_safe, Hs.
Qed.

Lemma type_ann_step_events samplenum s :
  filter is_type_ann (step_events samplenum s) = flag_events samplenum s.
Proof.
  unfold step_events, bit_events, flag_events, data_events.
  rewrite !filter_app.
  destruct (negb (ss_prev_clock s =? -1)); [destruct (prev_bit s)|];
    (destruct (prev_one_count s =? 6);
       [|destruct (prev_one_count s >? 6)]);
    (destruct (bitcount s =? 8);
       [destruct (rxbits s) as [|[b n] l]|]); reflexivity.
Qed.






Lemma steps_type_events es : forall s,
  Forall (fun x => s_data x = 1) es ->
  filter is_type_ann (steps_events es s)
  = if prev_one_count s <? 6 then []
    else map (fun e =>
                Put (ss_flag s) (s_samplenum e) out_ann
                  (Annotation ann_data_type
                     [if prev_one_count s =? 6 then "FLAG" else "ABORT"]))
           es.
Proof.
  induction es as [|x es IH]; intros s H.
  - cbn. destruct (prev_one_count s <? 6); reflexivity.
  - inversion H as [|? ? Hx Hes]; subst. cbn [steps_events map].
    rewrite filter_app, type_ann_step_events, (IH _ Hes), Hx.
    destruct (stepped_one (s_samplenum x) s) as (_ & Hp & _ & Hf & _).
    rewrite Hp, Hf. unfold flag_events.
    destruct (Z.ltb_spec (prev_one_count s) 6);
      destruct (Z.eqb_spec (prev_one_count s) 6); try lia;
      destruct (Z.gtb_spec (prev_one_count s) 6); try lia; reflexivity.
Qed.

(** X9: a FLAG or ABORT is not put once.  As long as 1 bits follow the 0
    that closed the run, every qualifying edge puts it again, from the same
    start sample to its own sample. *)
Theorem flag_shown_on_every_edge options s run :
  safe s ->
  Forall (fun e => accepted options (have_en s) e = true) run ->
  Forall (fun e => s_data e = 1) (filter (qualifying options (have_en s)) run) ->
  filter is_type_ann (events_of (feed options run s))
  = if prev_one_count s <? 6 then []
    else map (fun e =>
                Put (ss_flag s) (s_samplenum e) out_ann
                  (Annotation ann_data_type
                     [if prev_one_count s =? 6 then "FLAG" else "ABORT"]))
           (filter (qualifying options (have_en s)) run).
Proof.
  intros Hs Ha H1. rewrite (feed_safe options run s Hs Ha).
  unfold events_of. cbn [snd]. apply steps_type_events, H1.
Qed.

(** X10: how [flag_found] moves on a qualifying edge.  A 1 bit leaves it as
    it is.  Any other bit sets it when the run of 1s was exactly six long,
    keeps it when the run was at most five long, and clears it when the run
    was longer than six. *)
Theorem flag_found_after_edge options s x :
  safe s ->
  qualifying options (have_en s) x = true ->
  flag_found (state_of (deliver options x false s))
  = if s_data x =? 1 then flag_found s
    else (one_count s =? 6) || (flag_found s && (one_count s <=? 5)).
Proof.
  intros Hs Hq. rewrite (deliver_edge options s x Hs Hq).
  unfold state_of. cbn [fst snd].
  destruct (Z.leb_spec (one_count s) 5);
    destruct (flag_found s) eqn:Hf;
    open_step; cbn [orb andb]; try reflexivity; try congruence; lia.
Qed.

Lemma flagless_cons c d rest :
  flagless c (d :: rest) = true ->
  (d = 1 \/ (d <> 1 /\ c <> 6)) /\
  flagless (if d =? 1 then c + 1 else 0) rest = true.
Proof.
  cbn [flagless]. destruct (Z.eqb_spec d 1) as [->|Hd].
  - intros H. split; [left; reflexivity|exact H].
  - intros H. apply andb_prop in H as [Hc Hr].
    apply negb_true_iff, Z.eqb_neq in Hc.
    split; [right; split; assumption|exact Hr].
Qed.

Lemma stepped_unflagged samplenum data s :
  flag_found s = false ->
  bitcount s = 0 ->
  data = 1 \/ (data <> 1 /\ one_count s <> 6) ->
  let s' := stepped samplenum data s in
  flag_found s' = false /\ bitcount s' = 0 /\ rxbits s' = rxbits s /\
  rxdata s' = rxdata s /\
  one_count s' = (if data =? 1 then one_count s + 1 else 0).
Proof.
  intros Hf Hb Hd. cbv zeta.
  destruct Hd as [->|[Hd Hc]];
    open_step; repeat split; try reflexivity; try congruence; lia.
Qed.

Lemma steps_flagless es : forall s,
  flag_found s = false ->
  bitcount s = 0 ->
  flagless (one_count s) (map s_data es) = true ->
  flag_found (steps es s) = false /\
  bitcount (steps es s) = 0 /\
  rxbits (steps es s) = rxbits s /\
  rxdata (steps es s) = rxdata s /\
  filter is_data_ann (steps_events es s) = [].
Proof.
  induction es as [|x es IH]; intros s Hf Hb Hu.
  - cbn [steps steps_events filter]. repeat split; assumption.
  - cbn [map] in Hu. apply flagless_cons in Hu as [Hd Hr].
    destruct (stepped_unflagged (s_samplenum x) (s_data x) s Hf Hb Hd)
      as (S1 & S2 & S3 & S4 & S5).
    rewrite <- S5 in Hr.
    destruct (IH _ S1 S2 Hr) as (I1 & I2 & I3 & I4 & I5).
    cbn [steps steps_events].
    rewrite filter_app, data_ann_step_events, I5.
    unfold data_events. rewrite Hb. cbn.
    repeat split; congruence.
Qed.

(** X11: bits that arrive before a flag are dropped without a trace.  As
    long as no 0 closes a run of exactly six 1s, [flag_found] stays false,
    the register stays empty and no byte is annotated. *)
Theorem nothing_before_flag options s run :
  safe s ->
  flag_found s = false ->
  bitcount s = 0 ->
  Forall (fun e => accepted options (have_en s) e = true) run ->
  flagless (one_count s)
    (map s_data (filter (qualifying options (have_en s)) run)) = true ->
  let r := feed options run s in
  outcome r = inr tt /\
  flag_found (state_of r) = false /\
  bitcount (state_of r) = 0 /\
  rxbits (state_of r) = [] /\
  rxdata (state_of r) = rxdata s /\
  filter is_data_ann (events_of r) = [].
Proof.
  intros Hs Hf Hb Ha Hu. cbv zeta.
  rewrite (feed_safe options run s Hs Ha).
  unfold outcome, state_of, events_of. cbn [fst snd].
  destruct (steps_flagless _ s Hf Hb Hu) as (I1 & I2 & I3 & I4 & I5).
  destruct Hs as (_ & Hl & _). rewrite Hb in Hl.
  assert (rxbits s = []) as Hnil
    by (destruct (rxbits s); [reflexivity|discriminate]).
  repeat split; congruence.
Qed.

(** ** Frames *)

(** X12: a frame reset drops the bits that were buffered and asks for no
    new flag.  With [flag_found] set, the eight bits that follow the reset
    are a byte of their own: nothing is annotated before they are complete,
    and the next edge shows them, from the first of them, least significant
    bit first. *)
Theorem byte_after_frame_reset options s d run y :
  wf s ->
  flag_found s = true ->
  disabled options (have_en s) d = true ->
  Forall (fun e => accepted options (have_en s) e = true) run ->
  List.length (filter (qualifying options (have_en s)) run) = 8%nat ->
  unstuffed 0 (map s_data (filter (qualifying options (have_en s)) run))
  = true ->
  qualifying options (have_en s) y = true ->
  let edges := filter (qualifying options (have_en s)) run in
  let r := feed options (d :: run) s in
  outcome r = inr tt /\
  filter is_data_ann (events_of r) = [] /\
  exists first rest,
    edges = first :: rest /\
    filter is_data_ann (events_of (deliver options y false (state_of r)))
    = [Put (s_samplenum first) (s_samplenum y) out_ann
         (Annotation ann_data [fmt_02X (byte_of (map s_data edges))])].
Proof.
  intros Hwf Hf Hd Ha Hlen Hu Hy. cbv zeta.
  set (edges := filter (qualifying options (have_en s)) run) in *.
  set (s0 := frame_cleared s).
  assert (Hw0 : wf s0) by apply frame_cleared_wf.
  assert (Hbits : Forall is_bit edges).
  { apply unstuffed_bits in Hu. apply Forall_map in Hu. exact Hu. }
  assert (E : feed options (d :: run) s
              = (inr tt, steps edges s0, steps_events edges s0)).
  { cbn [feed].
    rewrite bind_silent with (a := tt) (s1 := s0)
      by (apply find_clk_edge_disabled; exact Hd).
    apply (feed_accepted options run s0 Hw0 Ha Hbits). }
  rewrite E. unfold outcome, state_of, events_of. cbn [fst snd].
  assert (Hne : edges <> []) by (intros N; rewrite N in Hlen; discriminate).
  destruct (steps_unstuffed edges s0 Hw0 Hf Hu Hne) as (_ & Hcount & _).
  cbv zeta in Hcount. rewrite Hlen in Hcount. cbn in Hcount.
  destruct (steps_fill edges s0 Hw0 Hf Hu ltac:(rewrite Hlen; cbn; lia))
    as (F1 & F2 & F3).
  assert (B0 : bitcount s0 = 0) by reflexivity.
  assert (R0 : rxbits s0 = []) by reflexivity.
  assert (D0 : rxdata s0 = 0) by reflexivity.
  rewrite Hlen, B0 in F1. change (0 + Z.of_nat 8) with 8 in F1.
  rewrite R0 in F2. cbn [app] in F2.
  rewrite D0, B0 in F3. change (2 ^ 0) with 1 in F3.
  rewrite Z.add_0_l, Z.mul_1_l in F3.
  split; [reflexivity|]. split.
  { destruct (filter is_data_ann (steps_events edges s0));
      [reflexivity|discriminate]. }
  destruct edges as [|first rest] eqn:Ee; [contradiction|].
  exists first, rest. split; [reflexivity|].
  assert (Hw1 : wf (steps (first :: rest) s0))
    by (apply steps_wf; assumption).
  rewrite (deliver_edge options _ y (safe_of_wf _ Hw1))
    by (rewrite steps_have_en; exact Hy).
  cbn [snd]. rewrite data_ann_step_events.
  unfold data_events. rewrite F1, F2, F3.
  change (8 =? 8) with true. cbv iota. cbn [map]. reflexivity.
Qed.

(** ** ENABLE not wired *)

Lemma find_clk_edge_no_enable o o' samplenum matched clk data en en' first s :
  truthy (have_en s) = false ->
  cpol o = cpol o' ->
  find_clk_edge o samplenum matched clk data en first s
  = find_clk_edge o' samplenum matched clk data en' first s.
Proof.
  intros He Hc. unfold find_clk_edge. exec. rewrite He, Hc. reflexivity.
Qed.

Lemma decode_loop_no_enable o o' wait_cond p : forall p' s,
  safe s ->
  truthy (have_en s) = false ->
  cpol o = cpol o' ->
  map without_en p = map without_en p' ->
  decode_loop o wait_cond p s = decode_loop o' wait_cond p' s.
Proof.
  induction p as [|x p IH]; intros [|x' p'] s Hs He Hc Hm; try discriminate.
  - reflexivity.
  - cbn [map] in Hm. injection Hm as H1 H2 H3 H4 Hp.
    cbn [decode_loop]. unfold wait. exec.
    rewrite H1, H2, H3, H4.
    rewrite (find_clk_edge_no_enable o o' _ _ _ _ (s_en x) (s_en x') false s
               He Hc).
    fold (deliver o' x' false).
    pose proof (deliver_path o' x' false s Hs) as Hpath.
    pose proof (path_safe _ _ _ _ _ Hs Hpath) as Hs1.
    pose proof (path_have_en _ _ _ _ _ Hpath) as He1.
    unfold state_of in Hs1, He1.
    destruct (deliver o' x' false s) as [[[e|[]] s1] o1]; cbn [fst snd] in *.
    + reflexivity.
    + rewrite (IH p' s1 Hs1 ltac:(rewrite He1; exact He) Hc Hp). reflexivity.
Qed.

(** X13: when ENABLE is not wired, neither the values read on its pin nor
    the polarity option have any effect: two recordings that differ only in
    the ENABLE values are decoded alike, events and final state. *)
Theorem enable_pin_unused o o' has_channel p p' :
  has_channel 2 = false ->
  cpol o = cpol o' ->
  map without_en p = map without_en p' ->
  decode o has_channel p reset = decode o' has_channel p' reset.
Proof.
  intros H2 Hc Hm.
  destruct (negb (has_channel 0) && negb (has_channel 1)) eqn:H.
  - unfold decode. rewrite H. reflexivity.
  - rewrite (decode_wired o has_channel p reset H),
            (decode_wired o' has_channel p' reset H).
    cbv zeta. rewrite H2.
    set (s0 := set_have_en (PyBool false) reset).
    assert (Hs0 : safe s0) by (unfold safe; cbn; repeat split; lia).
    assert (He0 : truthy (have_en s0) = false) by reflexivity.
    assert (E : (x <- wait (WDict []) p ;;
                 find_clk_edge o (s_samplenum x) (s_matched x) (s_clk x)
                   (s_data x) (s_en x) true ;;
                 decode_loop o [[(0, "e")]] (tl p)) s0
                = (x <- wait (WDict []) p' ;;
                   find_clk_edge o' (s_samplenum x) (s_matched x) (s_clk x)
                     (s_data x) (s_en x) true ;;
                   decode_loop o' [[(0, "e")]] (tl p')) s0).
    { destruct p as [|x p], p' as [|x' p']; try discriminate; [reflexivity|].
      cbn [map] in Hm. injection Hm as H1 H3 H4 H5 Hp.
      unfold wait. exec. cbn [tl].
      rewrite H1, H3, H4, H5.
      rewrite (find_clk_edge_no_enable o o' _ _ _ _ (s_en x) (s_en x') true s0
                 He0 Hc).
      rewrite find_clk_edge_first by (rewrite He0; reflexivity).
      cbn [fst snd app].
      rewrite (decode_loop_no_enable o o' _ p p' s0 Hs0 He0 Hc Hp).
      reflexivity. }
    rewrite E. reflexivity.
Qed.

(** ** Unstuffing *)

Lemma in_frame_cons c d rest :
  in_frame c (d :: rest) = true ->
  (d = 1 \/ (d = 0 /\ c < 5) \/ (d = 0 /\ c = 5)) /\
  in_frame (if d =? 1 then c + 1 else 0) rest = true.
Proof.
  cbn [in_frame]. destruct (Z.eqb_spec d 1) as [->|Hd].
  - intros H. split; [left; reflexivity|exact H].
  - intros H. apply andb_prop in H as [H Hr]. apply andb_prop in H as [H0 Hc].
    apply Z.eqb_eq in H0. apply Z.leb_le in Hc.
    split; [|exact Hr]. right. lia.
Qed.

Lemma in_frame_bits c bits :
  in_frame c bits = true -> Forall (fun d => d = 0 \/ d = 1) bits.
Proof.
  revert c. induction bits as [|d rest IH]; intros c H; [constructor|].
  apply in_frame_cons in H as [Hd Hr].
  constructor; [tauto|]. eapply IH, Hr.
Qed.

(** The stuffed 0: nothing is shifted, [flag_found] stays. *)
Lemma stepped_stuffed samplenum s :
  one_count s = 5 ->
  let s' := stepped samplenum 0 s in
  let full := bitcount s =? 8 in
  flag_found s' = flag_found s /\
  one_count s' = 0 /\
  bitcount s' = (if full then 0 else bitcount s) /\
  rxbits s' = (if full then [] else rxbits s) /\
  rxdata s' = (if full then 0 else rxdata s).
Proof.
  intros H5. cbv zeta. open_step; repeat split; try reflexivity; lia.
Qed.

Lemma data_events_count samplenum s :
  safe s ->
  Z.of_nat (List.length (data_events samplenum s))
  = (if bitcount s =? 8 then 1 else 0).
Proof.
  intros (Hb & Hl & _). unfold data_events.
  destruct (Z.eqb_spec (bitcount s) 8) as [E|E]; [|reflexivity].
  destruct (rxbits s) as [|[b ss] l]; [rewrite E in Hl; discriminate|].
  reflexivity.
Qed.

Lemma steps_accounting es : forall s,
  wf s ->
  flag_found s = true ->
  in_frame (one_count s) (map s_data es) = true ->
  flag_found (steps es s) = true /\
  8 * Z.of_nat (List.length (filter is_data_ann (steps_events es s)))
  + bitcount (steps es s)
  = bitcount s + Z.of_nat (List.length (destuff (one_count s) es)).
Proof.
  induction es as [|x es IH]; intros s Hwf Hf Hu.
  - cbn. split; [exact Hf|lia].
  - cbn [map] in Hu. apply in_frame_cons in Hu as [Hd Hr].
    assert (Hb : s_data x = 0 \/ s_data x = 1) by tauto.
    pose proof (stepped_wf (s_samplenum x) (s_data x) s Hwf Hb) as Hwf'.
    pose proof (data_events_count (s_samplenum x) s (safe_of_wf s Hwf))
      as Hcount.
    cbn [steps steps_events destuff].
    rewrite filter_app, length_app, data_ann_step_events, Nat2Z.inj_add.
    destruct Hd as [H1|[[H0 Hc]|[H0 Hc]]].
    + destruct (stepped_shifting (s_samplenum x) (s_data x) s Hwf Hf
                  (or_introl H1)) as (S1 & S2 & S3 & _).
      rewrite <- S2 in Hr. destruct (IH _ Hwf' S1 Hr) as [I1 I2].
      split; [exact I1|].
      rewrite S2, S3 in I2. rewrite H1 in *.
      change (1 =? 1) with true in *. cbv iota in *. cbn [List.length].
      destruct (Z.eqb_spec (bitcount s) 8); lia.
    + destruct (stepped_shifting (s_samplenum x) (s_data x) s Hwf Hf
                  (or_intror (conj H0 Hc))) as (S1 & S2 & S3 & _).
      rewrite <- S2 in Hr. destruct (IH _ Hwf' S1 Hr) as [I1 I2].
      split; [exact I1|].
      rewrite S2, S3 in I2. rewrite H0 in *.
      change (0 =? 1) with false in *. cbv iota in *.
      destruct (Z.ltb_spec (one_count s) 5); [|lia]. cbn [List.length].
      destruct (Z.eqb_spec (bitcount s) 8); lia.
    + rewrite H0 in *.
      destruct (stepped_stuffed (s_samplenum x) s Hc) as (S1 & S2 & S3 & _).
      change (0 =? 1) with false in *. cbv iota in *.
      rewrite <- S2 in Hr. rewrite Hf in S1.
      destruct (IH _ Hwf' S1 Hr) as [I1 I2].
      split; [exact I1|].
      rewrite S2, S3 in I2.
      destruct (Z.ltb_spec (one_count s) 5); [lia|].
      destruct (Z.eqb_spec (bitcount s) 8); lia.
Qed.

(** X14: inside a frame no bit is lost and none is counted twice.  With
    [flag_found] set and no flag or abort in the run, eight times the bytes
    annotated plus the bits left in the register is the bits that were in
    the register plus the edges of the run, less the 0s that follow five
    1s. *)
Theorem frame_bit_accounting options s run :
  wf s ->
  flag_found s = true ->
  Forall (fun e => accepted options (have_en s) e = true) run ->
  in_frame (one_count s)
    (map s_data (filter (qualifying options (have_en s)) run)) = true ->
  let edges := filter (qualifying options (have_en s)) run in
  let r := feed options run s in
  outcome r = inr tt /\
  flag_found (state_of r) = true /\
  8 * Z.of_nat (List.length (filter is_data_ann (events_of r)))
  + bitcount (state_of r)
  = bitcount s + Z.of_nat (List.length (destuff (one_count s) edges)).
Proof.
  intros Hwf Hf Ha Hu. cbv zeta.
  set (edges := filter (qualifying options (have_en s)) run) in *.
  assert (Hbits : Forall is_bit edges).
  { apply in_frame_bits in Hu. apply Forall_map in Hu. exact Hu. }
  rewrite (feed_accepted options run s Hwf Ha Hbits). fold edges.
  unfold outcome, state_of, events_of. cbn [fst snd].
  split; [reflexivity|]. apply steps_accounting; assumption.
Qed.

Lemma destuff_shift c x es :
  s_data x = 1 \/ (s_data x = 0 /\ c < 5) ->
  destuff c (x :: es)
  = x :: destuff (if s_data x =? 1 then c + 1 else 0) es.
Proof.
  intros [H1|[H0 Hc]]; cbn [destuff].
  - rewrite H1. reflexivity.
  - rewrite H0. change (0 =? 1) with false. cbv iota.
    destruct (Z.ltb_spec c 5); [reflexivity|lia].
Qed.

Lemma destuff_stuffed c x es :
  s_data x = 0 -> c = 5 -> destuff c (x :: es) = destuff 0 es.
Proof.
  intros H0 Hc. cbn [destuff]. rewrite H0.
  change (0 =? 1) with false. cbv iota.
  destruct (Z.ltb_spec c 5); [lia|reflexivity].
Qed.

Lemma steps_destuffed es : forall s,
  wf s ->
  flag_found s = true ->
  in_frame (one_count s) (map s_data es) = true ->
  es = [] \/
  bitcount s
  + Z.of_nat (List.length (destuff (one_count s) (removelast es))) < 8 ->
  bitcount (steps es s)
  = bitcount s + Z.of_nat (List.length (destuff (one_count s) es)) /\
  rxbits (steps es s)
  = rxbits s
    ++ map (fun e => (s_data e, s_samplenum e)) (destuff (one_count s) es) /\
  rxdata (steps es s)
  = rxdata s
    + 2 ^ bitcount s * byte_of (map s_data (destuff (one_count s) es)).
Proof.
  induction es as [|x es IH]; intros s Hwf Hf Hu Hroom.
  - cbn. rewrite app_nil_r. repeat split; lia.
  - destruct Hroom as [N|Hroom]; [discriminate|].
    cbn [map] in Hu. apply in_frame_cons in Hu as [Hd Hr].
    assert (Hb : s_data x = 0 \/ s_data x = 1) by tauto.
    pose proof (stepped_wf (s_samplenum x) (s_data x) s Hwf Hb) as Hwf'.
    destruct Hwf as [(Hb8 & Hl & Hx) Hp].
    assert (Hlt : bitcount s < 8) by lia.
    destruct (Z.eqb_spec (bitcount s) 8) as [E8|E8]; [lia|].
    assert (Hd' : (s_data x = 1 \/ (s_data x = 0 /\ one_count s < 5)) \/
                  (s_data x = 0 /\ one_count s = 5)) by tauto.
    cbn [steps].
    destruct Hd' as [Hs|[H0 Hc]].
    + destruct (stepped_shifting (s_samplenum x) (s_data x) s
                  (conj (conj Hb8 (conj Hl Hx)) Hp) Hf Hs)
        as (S1 & S2 & S3 & S4 & S5).
      cbv zeta in S3, S4, S5.
      destruct (Z.eqb_spec (bitcount s) 8); [lia|].
      rewrite <- S2 in Hr.
      assert (Hroom' :
                es = [] \/
                bitcount (stepped (s_samplenum x) (s_data x) s)
                + Z.of_nat (List.length
                    (destuff (one_count (stepped (s_samplenum x) (s_data x) s))
                       (removelast es))) < 8).
      { destruct es as [|y es']; [left; reflexivity|right].
        change (removelast (x :: y :: es'))
          with (x :: removelast (y :: es')) in Hroom.
        rewrite (destuff_shift _ _ _ Hs) in Hroom. cbn [List.length] in Hroom.
        rewrite S2, S3. lia. }
      destruct (IH _ Hwf' S1 Hr Hroom') as (I1 & I2 & I3).
      rewrite (destuff_shift _ _ _ Hs). cbn [List.length map byte_of].
      rewrite I1, I2, I3, S2, S3, S4, S5.
      rewrite lor_shift_add by (assumption || lia).
      rewrite <- app_assoc. cbn [app].
      rewrite Z.pow_add_r, Z.pow_1_r by lia.
      repeat split; lia.
    + pose proof H0 as H0x. rewrite H0 in Hr, Hwf' |- *.
      destruct (stepped_stuffed (s_samplenum x) s Hc)
        as (S1 & S2 & S3 & S4 & S5).
      cbv zeta in S3, S4, S5.
      destruct (Z.eqb_spec (bitcount s) 8); [lia|].
      change (0 =? 1) with false in Hr. cbv iota in Hr.
      rewrite <- S2 in Hr. rewrite Hf in S1.
      assert (Hroom' :
                es = [] \/
                bitcount (stepped (s_samplenum x) 0 s)
                + Z.of_nat (List.length
                    (destuff (one_count (stepped (s_samplenum x) 0 s))
                       (removelast es))) < 8).
      { destruct es as [|y es']; [left; reflexivity|right].
        change (removelast (x :: y :: es'))
          with (x :: removelast (y :: es')) in Hroom.
        rewrite (destuff_stuffed _ _ _ H0x Hc) in Hroom.
        rewrite S2, S3. exact Hroom. }
      destruct (IH _ Hwf' S1 Hr Hroom') as (I1 & I2 & I3).
      rewrite (destuff_stuffed _ _ _ H0x Hc).
      rewrite I1, I2, I3, S2, S3, S4, S5.
      repeat split; reflexivity.
Qed.

(** X15: unstuffing keeps everything but the stuffed 0s, in order.  With
    [flag_found] set, no flag or abort in the run and room in the register
    (it is not full before any edge of the run), the run adds to [rxbits]
    its edges less the 0s that follow five 1s, each with its sample, and to
    [rxdata] their bits, least significant first. *)
Theorem stuffed_zeros_dropped options s run :
  wf s ->
  flag_found s = true ->
  Forall (fun e => accepted options (have_en s) e = true) run ->
  in_frame (one_count s)
    (map s_data (filter (qualifying options (have_en s)) run)) = true ->
  bitcount s
  + Z.of_nat
      (List.length
         (destuff (one_count s)
            (removelast (filter (qualifying options (have_en s)) run)))) < 8 ->
  let kept := destuff (one_count s) (filter (qualifying options (have_en s)) run) in
  let r := feed options run s in
  outcome r = inr tt /\
  bitcount (state_of r) = bitcount s + Z.of_nat (List.length kept) /\
  rxbits (state_of r)
  = rxbits s ++ map (fun e => (s_data e, s_samplenum e)) kept /\
  rxdata (state_of r)
  = rxdata s + 2 ^ bitcount s * byte_of (map s_data kept).
Proof.
  intros Hwf Hf Ha Hu Hroom. cbv zeta.
  set (edges := filter (qualifying options (have_en s)) run) in *.
  assert (Hbits : Forall is_bit edges).
  { apply in_frame_bits in Hu. apply Forall_map in Hu. exact Hu. }
  rewrite (feed_accepted options run s Hwf Ha Hbits). fold edges.
  unfold outcome, state_of. cbn [fst snd].
  split; [reflexivity|].
  apply steps_destuffed; [assumption..|right; exact Hroom].
Qed.

(** ** Concrete instances of the further properties *)

(** Proves [Forall P l] on a concrete list, element by element. *)
Ltac each tac :=
  repeat first [apply Forall_nil | apply Forall_cons; [tac|]].

Ltac evident :=
  cbv beta;
  first [ solve [cbn; lia]
        | solve [vm_compute; first [discriminate | lia | tauto]] ].

Ltac sorted :=
  repeat first
    [ apply SSorted_nil | apply SSorted_cons; [|each ltac:(evident)] ].

Lemma wf_ex_six_ones : wf ex_six_ones.
Proof. unfold wf, reg_inv. repeat split; holds. Defined.

Lemma crc16_prefix_witness :
  crc16 (Some (ex_message ++ [110; 144])) 9 = crc16 (Some ex_message) 9 /\
  crc16 (Some ex_message) 9
  = crc16 (Some (firstn (Z.to_nat 9) ex_message)) 9.
Proof.
  apply (crc16_prefix ex_message [110; 144] 9). cbn. lia.
Defined.

Lemma crc16_residue_witness :
  crc16 (Some (ex_message ++ [0x906E mod 256; 0x906E / 256]))
    (Z.of_nat (List.length ex_message) + 2)
  = inr 0x0F47.
Proof.
  apply (crc16_residue ex_message 0x906E).
  - each ltac:(unfold is_byte; lia).
  - vm_compute. reflexivity.
Defined.

Lemma decode_runs_to_end_witness :
  outcome (decode ex_options wired_no_enable ex_flag_stream reset)
  = inl EOFError /\
  filter is_wait
    (events_of (decode ex_options wired_no_enable ex_flag_stream reset))
  = Wait (WDict [])
    :: repeat (Wait (WList (loop_cond (wired_no_enable 2))))
         (List.length ex_flag_stream).
Proof.
  apply (decode_runs_to_end ex_options wired_no_enable ex_flag_stream).
  - left. reflexivity.
  - each ltac:(discriminate).
Defined.

Lemma decode_spans_ordered_witness :
  Forall span_ok
    (events_of (decode ex_options wired_no_enable ex_byte_stream reset)).
Proof.
  apply (decode_spans_ordered ex_options wired_no_enable ex_byte_stream).
  - each ltac:(evident).
  - cbn. sorted.
Defined.

Lemma decode_byte_text_witness :
  Forall byte_text
    (events_of (decode ex_options wired_no_enable ex_byte_stream reset)).
Proof.
  apply (decode_byte_text ex_options wired_no_enable ex_byte_stream).
  each ltac:(evident).
Defined.


Lemma flag_shown_on_every_edge_witness :
  filter is_type_ann (events_of (feed ex_options ex_ones3 ex_flagged))
  = if prev_one_count ex_flagged <? 6 then []
    else map (fun e =>
                Put (ss_flag ex_flagged) (s_samplenum e) out_ann
                  (Annotation ann_data_type
                     [if prev_one_count ex_flagged =? 6
                      then "FLAG" else "ABORT"]))
           (filter (qualifying ex_options (have_en ex_flagged)) ex_ones3).
Proof.
  apply (flag_shown_on_every_edge ex_options ex_flagged ex_ones3
           (safe_of_wf _ wf_ex_flagged)).
  - repeat constructor.
  - vm_compute. repeat constructor.
Defined.

Lemma flag_found_after_edge_witness :
  flag_found (state_of (deliver ex_options ex_zero6 false ex_six_ones))
  = if s_data ex_zero6 =? 1 then flag_found ex_six_ones
    else (one_count ex_six_ones =? 6)
         || (flag_found ex_six_ones && (one_count ex_six_ones <=? 5)).
Proof.
  apply (flag_found_after_edge ex_options ex_six_ones ex_zero6
           (safe_of_wf _ wf_ex_six_ones)).
  reflexivity.
Defined.

Lemma nothing_before_flag_witness :
  outcome (feed ex_options ex_noise reset) = inr tt /\
  flag_found (state_of (feed ex_options ex_noise reset)) = false /\
  bitcount (state_of (feed ex_options ex_noise reset)) = 0 /\
  rxbits (state_of (feed ex_options ex_noise reset)) = [] /\
  rxdata (state_of (feed ex_options ex_noise reset)) = rxdata reset /\
  filter is_data_ann (events_of (feed ex_options ex_noise reset)) = [].
Proof.
  apply (nothing_before_flag ex_options reset ex_noise
           (safe_of_wf _ wf_reset)).
  - reflexivity.
  - reflexivity.
  - repeat constructor.
  - reflexivity.
Defined.

Lemma byte_after_frame_reset_witness :
  outcome (feed ex_options (ex_disable :: ex_reset_byte) ex_framed) = inr tt /\
  filter is_data_ann
    (events_of (feed ex_options (ex_disable :: ex_reset_byte) ex_framed))
  = [] /\
  exists first rest,
    filter (qualifying ex_options (have_en ex_framed)) ex_reset_byte
    = first :: rest /\
    filter is_data_ann
      (events_of
         (deliver ex_options ex_reset_next false
            (state_of
               (feed ex_options (ex_disable :: ex_reset_byte) ex_framed))))
    = [Put (s_samplenum first) (s_samplenum ex_reset_next) out_ann
         (Annotation ann_data
            [fmt_02X
               (byte_of
                  (map s_data
                     (filter (qualifying ex_options (have_en ex_framed))
                        ex_reset_byte)))])].
Proof.
  apply (byte_after_frame_reset ex_options ex_framed ex_disable ex_reset_byte
           ex_reset_next wf_ex_framed).
  - reflexivity.
  - reflexivity.
  - repeat constructor.
  - reflexivity.
  - reflexivity.
  - reflexivity.
Defined.

Lemma enable_pin_unused_witness :
  decode ex_options wired_no_enable ex_flag_stream reset
  = decode ex_options_low wired_no_enable ex_flag_stream_low reset.
Proof.
  apply (enable_pin_unused ex_options ex_options_low wired_no_enable
           ex_flag_stream ex_flag_stream_low); reflexivity.
Defined.

Lemma frame_bit_accounting_witness :
  outcome (feed ex_options ex_stuffed_run ex_flagged) = inr tt /\
  flag_found (state_of (feed ex_options ex_stuffed_run ex_flagged)) = true /\
  8 * Z.of_nat
        (List.length
           (filter is_data_ann
              (events_of (feed ex_options ex_stuffed_run ex_flagged))))
  + bitcount (state_of (feed ex_options ex_stuffed_run ex_flagged))
  = bitcount ex_flagged
    + Z.of_nat
        (List.length
           (destuff (one_count ex_flagged)
              (filter (qualifying ex_options (have_en ex_flagged))
                 ex_stuffed_run))).
Proof.
  apply (frame_bit_accounting ex_options ex_flagged ex_stuffed_run
           wf_ex_flagged).
  - reflexivity.
  - repeat constructor.
  - reflexivity.
Defined.

Lemma stuffed_zeros_dropped_witness :
  outcome (feed ex_options ex_stuffed_byte ex_flagged) = inr tt /\
  bitcount (state_of (feed ex_options ex_stuffed_byte ex_flagged))
  = bitcount ex_flagged
    + Z.of_nat
        (List.length
           (destuff (one_count ex_flagged)
              (filter (qualifying ex_options (have_en ex_flagged))
                 ex_stuffed_byte))) /\
  rxbits (state_of (feed ex_options ex_stuffed_byte ex_flagged))
  = rxbits ex_flagged
    ++ map (fun e => (s_data e, s_samplenum e))
         (destuff (one_count ex_flagged)
            (filter (qualifying ex_options (have_en ex_flagged))
               ex_stuffed_byte)) /\
  rxdata (state_of (feed ex_options ex_stuffed_byte ex_flagged))
  = rxdata ex_flagged
    + 2 ^ bitcount ex_flagged
      * byte_of
          (map s_data
             (destuff (one_count ex_flagged)
                (filter (qualifying ex_options (have_en ex_flagged))
                   ex_stuffed_byte))).
Proof.
  apply (stuffed_zeros_dropped ex_options ex_flagged ex_stuffed_byte
           wf_ex_flagged).
  - reflexivity.
  - repeat constructor.
  - reflexivity.
  - vm_compute. reflexivity.
Defined.
